(** * NBA clutch-player analysis: a shallow embedding

    The development embeds the two scripts of the repository,
    [clutch_player_analysis.py] and [compare_net_rating.py].

    Numbers.  The statistics delivered by the stats API and the values
    derived from them are IEEE doubles in the scripts.  Finite values are
    modelled as exact rationals ([Q], no rounding, a single zero); the three
    special values a division can produce are kept ([PInf], [NInf], [NaN]),
    since the scripts divide by counts that can be zero.

    Data frames.  A data frame is the list of its rows.  [groupby] on the
    categorical column made by [pd.cut] lists every category, also the ones
    no row falls in (pandas' [observed=False], the default of the 2.x line
    the scripts were written for; the charting code relies on it when it
    tests [fga > 0]).

    Effects.  Functions that print, call the API or raise are written in a
    small state-and-exception monad; the state holds the standard output and
    the dictionary under construction. *)

From Stdlib Require Import ZArith QArith Qfield Lqa Lia List String Ascii Bool.
From Stdlib Require Import DecimalString.
Import ListNotations.
Open Scope string_scope.
Open Scope Z_scope.

Set Implicit Arguments.

(* ================================================================= *)
(** ** Floating-point values *)

Module Float.

Inductive fval : Type :=
| Fin (q : Q)
| PInf
| NInf
| NaN.

Definition of_Z (z : Z) : fval := Fin (inject_Z z).

(** [q > 0] on rationals, as a boolean. *)
Definition Qpos_b (q : Q) : bool := (0 <? Qnum q)%Z.
Definition Qzero_b (q : Q) : bool := (Qnum q =? 0)%Z.

(** [a + b] *)
Definition fadd (a b : fval) : fval :=
  match a, b with
  | NaN, _ | _, NaN => NaN
  | Fin x, Fin y => Fin (x + y)
  | PInf, NInf | NInf, PInf => NaN
  | PInf, _ | _, PInf => PInf
  | NInf, _ | _, NInf => NInf
  end.

(** [a / b] as numpy computes it: a zero divisor gives [nan] for a zero
    dividend and an infinity otherwise; nothing is raised. *)
Definition fdiv (a b : fval) : fval :=
  match a, b with
  | NaN, _ | _, NaN => NaN
  | Fin x, Fin y =>
      if Qzero_b y then
        if Qzero_b x then NaN else if Qpos_b x then PInf else NInf
      else Fin (x / y)
  | Fin _, (PInf | NInf) => Fin 0
  | (PInf | NInf), (PInf | NInf) => NaN
  | PInf, Fin y => if Qpos_b y || Qzero_b y then PInf else NInf
  | NInf, Fin y => if Qpos_b y || Qzero_b y then NInf else PInf
  end.

(** Numeric equality: rationals up to [Qeq]; [nan] equals nothing. *)
Definition feq (a b : fval) : Prop :=
  match a, b with
  | Fin x, Fin y => (x == y)%Q
  | PInf, PInf | NInf, NInf => True
  | _, _ => False
  end.

(** [sum(l)], starting from 0. *)
Definition fsum (l : list fval) : fval := fold_left fadd l (Fin 0).

End Float.
Import Float.

(* ================================================================= *)
(** ** Python strings and dictionaries *)

Module Py.

(** [c.lower()] on an ASCII character. *)
Definition lower_ascii (c : ascii) : ascii :=
  let n := nat_of_ascii c in
  if (65 <=? n)%nat && (n <=? 90)%nat then ascii_of_nat (n + 32) else c.

(** [s.lower()] *)
Fixpoint lower (s : string) : string :=
  match s with
  | EmptyString => EmptyString
  | String c s' => String (lower_ascii c) (lower s')
  end.

(** [s.replace(a, b)] for single characters [a] and [b]. *)
Fixpoint replace (a b : ascii) (s : string) : string :=
  match s with
  | EmptyString => EmptyString
  | String c s' => String (if Ascii.eqb c a then b else c) (replace a b s')
  end.

(** A [dict] with string keys: an association list in insertion order. *)
Definition dict (V : Type) : Type := list (string * V).

(** [d.get(k)] *)
Fixpoint get {V} (d : dict V) (k : string) : option V :=
  match d with
  | [] => None
  | (k', v) :: d' => if String.eqb k' k then Some v else get d' k
  end.

(** [d[k] = v]: overwrites in place, or appends a new key. *)
Fixpoint set {V} (d : dict V) (k : string) (v : V) : dict V :=
  match d with
  | [] => [(k, v)]
  | (k', v') :: d' =>
      if String.eqb k' k then (k', v) :: d' else (k', v') :: set d' k v
  end.

Definition keys {V} (d : dict V) : list string := map fst d.
Definition values {V} (d : dict V) : list V := map snd d.

(** [k in d] *)
Definition mem {V} (d : dict V) (k : string) : bool :=
  match get d k with Some _ => true | None => false end.

End Py.

(* ================================================================= *)
(** ** Shot-distance statistics
  [analyze_clutch_player], lines 179-206 of clutch_player_analysis.py. *)

Module ShotDistance.

(** A row of the shot-chart frame: the two columns the script reads. *)
Record shot : Type := mkShot {
  SHOT_DISTANCE : Z;
  SHOT_MADE_FLAG : Z
}.

Definition bins : list Z := [0; 3; 10; 16; 23; 40].
Definition labels : list string :=
  ["0-3 ft"; "3-10 ft"; "10-16 ft"; "16-23 ft"; "23+ ft"].

(** [pd.cut(x, bins, labels)]: the label of the interval [(lo, hi]] that
    holds [x] (intervals are closed on the right), no label when there is
    none. *)
Fixpoint cut_from (x lo : Z) (edges : list Z) (labs : list string)
  : option string :=
  match edges, labs with
  | hi :: edges', l :: labs' =>
      if (lo <? x) && (x <=? hi) then Some l else cut_from x hi edges' labs'
  | _, _ => None
  end.

Definition pd_cut (x : Z) (edges : list Z) (labs : list string)
  : option string :=
  match edges with
  | lo :: edges' => cut_from x lo edges' labs
  | [] => None
  end.

(** The DISTANCE_BIN column of a shot. *)
Definition DISTANCE_BIN (s : shot) : option string :=
  pd_cut (SHOT_DISTANCE s) bins labels.

Definition in_bin (l : string) (s : shot) : bool :=
  match DISTANCE_BIN s with
  | Some l' => String.eqb l' l
  | None => false
  end.

(** [groupby('DISTANCE_BIN').agg({'SHOT_MADE_FLAG': ['count', 'sum']})],
    columns renamed to FGA and FGM: one row per category. *)
Definition group (shot_df : list shot) (l : string) : list shot :=
  filter (in_bin l) shot_df.

Definition FGA (shot_df : list shot) (l : string) : Z :=
  Z.of_nat (List.length (group shot_df l)).

Definition FGM (shot_df : list shot) (l : string) : Z :=
  fold_left Z.add (map SHOT_MADE_FLAG (group shot_df l)) 0.

(** [distance_stats['FGA'].sum()] *)
Definition FGA_total (shot_df : list shot) : Z :=
  fold_left Z.add (map (FGA shot_df) labels) 0.

(** A value of [season_data['shot_distance']]. *)
Record bin_stats : Type := mkBin {
  fgm : Z;
  fga : Z;
  fg_pct : fval;
  pct_fga : fval
}.

Definition group_name (idx : string) : string :=
  Py.replace " "%char "_"%char (Py.lower idx).

(** The row of [distance_stats] for one label, as stored.  The two
    quotients are divisions of doubles in the script; here each is the
    exact rational that the double rounds (see the note on numbers at the
    head of the file), or [nan] for 0/0.  What is proved of them below is
    kept by rounding to the nearest double: being [nan] or not, sign,
    bounds and order. *)
Definition row_stats (shot_df : list shot) (l : string) : bin_stats :=
  {| fgm := FGM shot_df l;
     fga := FGA shot_df l;
     fg_pct := fdiv (of_Z (FGM shot_df l)) (of_Z (FGA shot_df l));
     pct_fga := fdiv (of_Z (FGA shot_df l)) (of_Z (FGA_total shot_df)) |}.

(** The loop of lines 198-206 over [distance_stats.iterrows()]. *)
Definition shot_distance (shot_df : list shot) : Py.dict bin_stats :=
  fold_left
    (fun d l => Py.set d (group_name l) (row_stats shot_df l))
    labels [].

End ShotDistance.

(* ================================================================= *)
(** ** Effects: standard output, a heap, exceptions *)

Module Effects.

(** An exception (any subclass of [Exception]), by its message [str(e)]. *)
Definition exn : Type := string.

Inductive outcome (A : Type) : Type :=
| Returned (a : A)
| Raised (e : exn).
Arguments Raised {A} e.

(** What a computation runs in: the lines printed so far and the objects
    the function has built ([H] is chosen by each script). *)
Record world (H : Type) : Type := mkWorld {
  stdout : list string;
  heap : H
}.

Definition M (H A : Type) : Type := world H -> outcome A * world H.

Definition ret {H A} (a : A) : M H A := fun w => (Returned a, w).

Definition bind {H A B} (m : M H A) (k : A -> M H B) : M H B :=
  fun w =>
    match m w with
    | (Returned a, w') => k a w'
    | (Raised e, w') => (Raised e, w')
    end.

Definition raise {H A} (e : exn) : M H A := fun w => (Raised e, w).

(** [try: body except Exception as e: handler(e)].  What the body printed
    and stored before it raised stays. *)
Definition try_except {H A} (body : M H A) (handler : exn -> M H A)
  : M H A :=
  fun w =>
    match body w with
    | (Returned a, w') => (Returned a, w')
    | (Raised e, w') => handler e w'
    end.

(** [print(s)] *)
Definition print {H} (s : string) : M H unit :=
  fun w => (Returned tt, {| stdout := stdout w ++ [s]; heap := heap w |}).

(** A call into a library: it returns or raises, and touches nothing of
    ours. *)
Definition call {H A} (o : outcome A) : M H A := fun w => (o, w).

Definition read {H} : M H H := fun w => (Returned (heap w), w).

Definition update {H} (f : H -> H) : M H unit :=
  fun w => (Returned tt, {| stdout := stdout w; heap := f (heap w) |}).

(** [time.sleep(n)]: only time passes. *)
Definition sleep {H} (seconds : Z) : M H unit := ret tt.

(** [for x in xs: body(x)] *)
Fixpoint for_each {H A} (xs : list A) (body : A -> M H unit) : M H unit :=
  match xs with
  | [] => ret tt
  | x :: xs' => bind (body x) (fun _ => for_each xs' body)
  end.

Declare Scope monad_scope.
Delimit Scope monad_scope with monad.
Notation "x <- m ;; k" := (bind m (fun x => k))
  (at level 61, m at next level, right associativity) : monad_scope.
Notation "m ;; k" := (bind m (fun _ => k))
  (at level 61, right associativity) : monad_scope.

End Effects.
Import Effects.

(* ================================================================= *)
(** ** The stats API, as the scripts see it *)

Module Api.

(** An entry of [players.find_players_by_full_name]. *)
Record player : Type := mkPlayer {
  id : Z;
  full_name : string;
  is_active : bool
}.

(** The row of [CommonPlayerInfo]: the columns read. *)
Record info_row : Type := mkInfo {
  HEIGHT : string;
  WEIGHT : string
}.

Inductive measure_type : Type := Base | Advanced.
Inductive season_type : Type := Regular_Season | Playoffs.
(** [per_mode_detailed]: left at the endpoint's default, or 'Per36'. *)
Inductive per_mode : Type := Default_mode | Per36.

(** A row of a 'Base' frame: the columns read. *)
Record base_row : Type := mkBase {
  b_PLAYER_NAME : string;
  GP : Q; MIN : Q; PTS : Q;
  FG_PCT : Q; FG3_PCT : Q; FT_PCT : Q;
  AST : Q; TOV : Q; STL : Q; BLK : Q;
  PLUS_MINUS : Q
}.

(** A row of an 'Advanced' frame: the columns read.  [AST_PCT] is [None]
    when the frame has no such column (the script tests for it). *)
Record adv_row : Type := mkAdv {
  a_PLAYER_NAME : string;
  USG_PCT : Q; TS_PCT : Q;
  NET_RATING : Q; OFF_RATING : Q; DEF_RATING : Q;
  AST_PCT : option Q;
  PIE : Q
}.

Definition row (m : measure_type) : Type :=
  match m with Base => base_row | Advanced => adv_row end.

Definition PLAYER_NAME {m : measure_type} : row m -> string :=
  match m with Base => b_PLAYER_NAME | Advanced => a_PLAYER_NAME end.

(** [df[df['PLAYER_NAME'] == player_name]] *)
Definition select_player {m} (df : list (row m)) (player_name : string)
  : list (row m) :=
  filter (fun r => String.eqb (PLAYER_NAME r) player_name) df.

(** [df.empty] *)
Definition empty {A} (df : list A) : bool :=
  match df with [] => true | _ :: _ => false end.

End Api.

(* ================================================================= *)
(** ** The records built by [analyze_clutch_player] *)

Module Analysis.
Import Api.

(** [results['player_info']] *)
Record player_info_t : Type := mkPlayerInfo {
  height : string;
  weight : string;
  player_id : Z
}.

(** The clutch branch of the assist-to-turnover ratio (lines 128-131). *)
Definition clutch_ast_to_tov (ast tov : Q) : Q :=
  if Qpos_b tov then (ast / tov)%Q
  else if Qpos_b ast then ast else 0%Q.

(** The regular-season branch (line 237). *)
Definition regular_ast_to_tov (ast tov : Q) : Q :=
  if Qpos_b tov then (ast / tov)%Q else ast.

(** [season_data['clutch_basic']] *)
Record clutch_basic_t : Type := mkBasic {
  gp : Q; min : Q; pts : Q;
  fg_pct : Q; fg3_pct : Q; ft_pct : Q;
  ast : Q; tov : Q; stl : Q; blk : Q;
  plus_minus : Q;
  ast_to_tov : Q
}.

Definition make_clutch_basic (r : base_row) : clutch_basic_t :=
  {| gp := GP r; min := MIN r; pts := PTS r;
     fg_pct := FG_PCT r; fg3_pct := FG3_PCT r; ft_pct := FT_PCT r;
     ast := AST r; tov := TOV r; stl := STL r; blk := BLK r;
     plus_minus := PLUS_MINUS r;
     ast_to_tov := clutch_ast_to_tov (AST r) (TOV r) |}.

(** [season_data['clutch_advanced']] *)
Record clutch_advanced_t : Type := mkAdvanced {
  usg_pct : Q; ts_pct : Q;
  net_rating : Q; off_rating : Q; def_rating : Q;
  ast_pct : option Q;
  pie : Q
}.

Definition make_clutch_advanced (r : adv_row) : clutch_advanced_t :=
  {| usg_pct := USG_PCT r; ts_pct := TS_PCT r;
     net_rating := NET_RATING r; off_rating := OFF_RATING r;
     def_rating := DEF_RATING r;
     ast_pct := AST_PCT r;
     pie := PIE r |}.

(** The keys of the 'regular' and 'clutch' dictionaries of a comparison. *)
Inductive metric : Type :=
| Pts | Fg_pct | Fg3_pct | Ft_pct | Ast | Tov | Ast_to_tov.

(** [season_data['regular_vs_clutch']]: two dictionaries over [metric]. *)
Record comparison : Type := mkComparison {
  regular : metric -> Q;
  clutch : metric -> Q
}.

Definition make_comparison (player_regular player_clutch : base_row)
    (clutch_basic : clutch_basic_t) : comparison :=
  {| regular := fun m =>
       match m with
       | Pts => PTS player_regular
       | Fg_pct => FG_PCT player_regular
       | Fg3_pct => FG3_PCT player_regular
       | Ft_pct => FT_PCT player_regular
       | Ast => AST player_regular
       | Tov => TOV player_regular
       | Ast_to_tov =>
           regular_ast_to_tov (AST player_regular) (TOV player_regular)
       end;
     clutch := fun m =>
       match m with
       | Pts => PTS player_clutch
       | Fg_pct => FG_PCT player_clutch
       | Fg3_pct => FG3_PCT player_clutch
       | Ft_pct => FT_PCT player_clutch
       | Ast => AST player_clutch
       | Tov => TOV player_clutch
       | Ast_to_tov => ast_to_tov clutch_basic
       end |}.

(** [season_data]: [None] is an absent key. *)
Record season_data_t : Type := mkSeasonData {
  season : string;
  clutch_basic : option clutch_basic_t;
  clutch_advanced : option clutch_advanced_t;
  shot_distance : option (Py.dict ShotDistance.bin_stats);
  regular_vs_clutch : option comparison
}.

(** [{'season': season}] *)
Definition new_season_data (s : string) : season_data_t :=
  {| season := s; clutch_basic := None; clutch_advanced := None;
     shot_distance := None; regular_vs_clutch := None |}.

Definition set_clutch_basic (v : clutch_basic_t) (d : season_data_t) :=
  {| season := season d; clutch_basic := Some v;
     clutch_advanced := clutch_advanced d;
     shot_distance := shot_distance d;
     regular_vs_clutch := regular_vs_clutch d |}.

Definition set_clutch_advanced (v : clutch_advanced_t) (d : season_data_t) :=
  {| season := season d; clutch_basic := clutch_basic d;
     clutch_advanced := Some v;
     shot_distance := shot_distance d;
     regular_vs_clutch := regular_vs_clutch d |}.

Definition set_shot_distance (v : Py.dict ShotDistance.bin_stats)
    (d : season_data_t) :=
  {| season := season d; clutch_basic := clutch_basic d;
     clutch_advanced := clutch_advanced d;
     shot_distance := Some v;
     regular_vs_clutch := regular_vs_clutch d |}.

Definition set_regular_vs_clutch (v : comparison) (d : season_data_t) :=
  {| season := season d; clutch_basic := clutch_basic d;
     clutch_advanced := clutch_advanced d;
     shot_distance := shot_distance d;
     regular_vs_clutch := Some v |}.

(** [results].  Its two last lists are created empty and never written. *)
Record results_t : Type := mkResults {
  player_name : string;
  seasons : list string;
  player_info : option player_info_t;
  clutch_stats : list season_data_t;
  results_shot_distance : list unit;
  results_regular_vs_clutch : list unit
}.

Definition new_results (name : string) (ss : list string) : results_t :=
  {| player_name := name; seasons := ss; player_info := None;
     clutch_stats := []; results_shot_distance := [];
     results_regular_vs_clutch := [] |}.

Definition set_player_info (v : player_info_t) (r : results_t) :=
  {| player_name := player_name r; seasons := seasons r;
     player_info := Some v; clutch_stats := clutch_stats r;
     results_shot_distance := results_shot_distance r;
     results_regular_vs_clutch := results_regular_vs_clutch r |}.

(** [results['clutch_stats'].append(d)] *)
Definition append_clutch_stats (d : season_data_t) (r : results_t) :=
  {| player_name := player_name r; seasons := seasons r;
     player_info := player_info r; clutch_stats := clutch_stats r ++ [d];
     results_shot_distance := results_shot_distance r;
     results_regular_vs_clutch := results_regular_vs_clutch r |}.

End Analysis.

(* ================================================================= *)
(** ** What [visualize_player_analysis] computes before it draws *)

Module Visualize.
Import Analysis.

(** *** 1. Shooting percentages over seasons (lines 282-292) *)

Definition with_clutch_basic (stats : list season_data_t)
  : list (string * clutch_basic_t) :=
  flat_map
    (fun d => match clutch_basic d with
              | Some b => [(season d, b)]
              | None => []
              end) stats.

Record shooting_chart : Type := mkShooting {
  sh_seasons : list string;
  fg_pcts : list Q;
  fg3_pcts : list Q;
  ft_pcts : list Q
}.

Definition shooting (stats : list season_data_t) : shooting_chart :=
  let rows := with_clutch_basic stats in
  {| sh_seasons := map fst rows;
     fg_pcts := map (fun r => fg_pct (snd r)) rows;
     fg3_pcts := map (fun r => fg3_pct (snd r)) rows;
     ft_pcts := map (fun r => ft_pct (snd r)) rows |}.

(** *** 2. Regular vs clutch, averaged over the seasons (lines 311-349) *)

Definition metrics : list metric :=
  [Pts; Fg_pct; Fg3_pct; Ft_pct; Ast; Tov; Ast_to_tov].

Definition pct_metrics : list metric := [Fg_pct; Fg3_pct; Ft_pct].

Definition metric_eqb (a b : metric) : bool :=
  match a, b with
  | Pts, Pts | Fg_pct, Fg_pct | Fg3_pct, Fg3_pct | Ft_pct, Ft_pct
  | Ast, Ast | Tov, Tov | Ast_to_tov, Ast_to_tov => true
  | _, _ => false
  end.

(** [m in l] *)
Definition metric_in (m : metric) (l : list metric) : bool :=
  existsb (metric_eqb m) l.

Definition count_metrics : list metric :=
  filter (fun m => negb (metric_in m pct_metrics)) metrics.

(** [d[m] = v] on a dictionary over the metrics. *)
Definition assign (d : metric -> Q) (m : metric) (v : Q) : metric -> Q :=
  fun m' => if metric_eqb m' m then v else d m'.

(** The three accumulators of the loop of lines 317-322. *)
Record totals : Type := mkTotals {
  regular_avgs : metric -> Q;
  clutch_avgs : metric -> Q;
  count : Z
}.

Definition zero_totals : totals :=
  {| regular_avgs := fun _ => 0%Q; clutch_avgs := fun _ => 0%Q;
     count := 0 |}.

(** The inner loop [for m in metrics]. *)
Definition add_comparison (t : totals) (c : comparison) : totals :=
  fold_left
    (fun t m =>
       {| regular_avgs :=
            assign (regular_avgs t) m (regular_avgs t m + regular c m)%Q;
          clutch_avgs :=
            assign (clutch_avgs t) m (clutch_avgs t m + clutch c m)%Q;
          count := count t |})
    metrics
    {| regular_avgs := regular_avgs t; clutch_avgs := clutch_avgs t;
       count := count t + 1 |}.

Definition add_season (t : totals) (d : season_data_t) : totals :=
  match regular_vs_clutch d with
  | Some c => add_comparison t c
  | None => t
  end.

Definition season_totals (stats : list season_data_t) : totals :=
  fold_left add_season stats zero_totals.

(** The comparisons that are there, season by season. *)
Definition comparisons (stats : list season_data_t) : list comparison :=
  flat_map (fun d => match regular_vs_clutch d with
                     | Some c => [c]
                     | None => []
                     end) stats.

Record comparison_chart : Type := mkComparisonChart {
  regular_count_vals : list Q;
  clutch_count_vals : list Q;
  regular_pct_vals : list Q;
  clutch_pct_vals : list Q
}.

(** The bars of the second panel; nothing is drawn when [count] is 0. *)
Definition comparison_bars (stats : list season_data_t)
  : option comparison_chart :=
  let t := season_totals stats in
  if 0 <? count t then
    let avg (sums : metric -> Q) (m : metric) : Q :=
      (sums m / inject_Z (count t))%Q in
    Some {| regular_count_vals := map (avg (regular_avgs t)) count_metrics;
            clutch_count_vals := map (avg (clutch_avgs t)) count_metrics;
            regular_pct_vals := map (avg (regular_avgs t)) pct_metrics;
            clutch_pct_vals := map (avg (clutch_avgs t)) pct_metrics |}
  else None.

(** *** 3. Shot-distance breakdown (lines 371-414) *)

(** A value of [distance_data]. *)
Record distance_totals : Type := mkDistanceTotals {
  d_pct_fga : fval;
  d_fg_pct : fval;
  d_count : Z;
  d_fga : Z
}.

Definition zero_distance : distance_totals :=
  {| d_pct_fga := Fin 0; d_fg_pct := Fin 0; d_count := 0; d_fga := 0 |}.

(** The body of the loop over [season_data['shot_distance'].items()]. *)
Definition add_bin (distance_data : Py.dict distance_totals)
    (item : string * ShotDistance.bin_stats) : Py.dict distance_totals :=
  let (distance, stats) := item in
  let distance_data :=
    if Py.mem distance_data distance then distance_data
    else Py.set distance_data distance zero_distance in
  match Py.get distance_data distance with
  | None => distance_data
  | Some t =>
      let t1 :=
        {| d_pct_fga := fadd (d_pct_fga t) (ShotDistance.pct_fga stats);
           d_fg_pct := d_fg_pct t; d_count := d_count t;
           d_fga := d_fga t |} in
      let t2 :=
        if 0 <? ShotDistance.fga stats then
          {| d_pct_fga := d_pct_fga t1;
             d_fg_pct := fadd (d_fg_pct t1) (ShotDistance.fg_pct stats);
             d_count := d_count t1;
             d_fga := d_fga t1 + ShotDistance.fga stats |}
        else t1 in
      Py.set distance_data distance
        {| d_pct_fga := d_pct_fga t2; d_fg_pct := d_fg_pct t2;
           d_count := d_count t2 + 1; d_fga := d_fga t2 |}
  end.

Definition add_season_distances (distance_data : Py.dict distance_totals)
    (d : season_data_t) : Py.dict distance_totals :=
  match shot_distance d with
  | Some bins => fold_left add_bin bins distance_data
  | None => distance_data
  end.

Definition distance_data (stats : list season_data_t)
  : Py.dict distance_totals :=
  fold_left add_season_distances stats [].

(** The three parallel lists of the chart. *)
Record distance_chart : Type := mkDistanceChart {
  distances : list string;
  pct_fga : list fval;
  fg_pct : list (option fval)
}.

(** [stats['pct_fga'] / stats['count']] *)
Definition average_pct_fga (t : distance_totals) : fval :=
  fdiv (d_pct_fga t) (of_Z (d_count t)).

(** [stats['fg_pct'] / stats['count']], or [None] without attempts. *)
Definition average_fg_pct (t : distance_totals) : option fval :=
  if 0 <? d_fga t then Some (fdiv (d_fg_pct t) (of_Z (d_count t)))
  else None.

(** The loop of lines 394-403. *)
Definition distance_averages (dd : Py.dict distance_totals)
  : distance_chart :=
  let kept := filter (fun item => 0 <? d_count (snd item)) dd in
  {| distances := map fst kept;
     pct_fga := map (fun item => average_pct_fga (snd item)) kept;
     fg_pct := map (fun item => average_fg_pct (snd item)) kept |}.

Definition distance_order : list string :=
  ["0-3_ft"; "3-10_ft"; "10-16_ft"; "16-23_ft"; "23+_ft"].

(** [l.index(d)], for a [d] that is in [l]. *)
Fixpoint index (d : string) (l : list string) : nat :=
  match l with
  | [] => O
  | x :: l' => if String.eqb x d then O else S (index d l')
  end.

(** Lines 406-414: the lists in the order of [distance_order]. *)
Definition sort_distances (c : distance_chart) : distance_chart :=
  let sorted_indices :=
    map (fun d => index d (distances c))
        (filter (fun d => existsb (String.eqb d) (distances c))
                distance_order) in
  {| distances := map (fun i => nth i (distances c) "") sorted_indices;
     pct_fga := map (fun i => nth i (pct_fga c) NaN) sorted_indices;
     fg_pct := map (fun i => nth i (fg_pct c) None) sorted_indices |}.

Definition distance_breakdown (stats : list season_data_t)
  : distance_chart :=
  sort_distances (distance_averages (distance_data stats)).

(** *** 4. Advanced metrics over seasons (lines 454-464) *)

Record advanced_chart : Type := mkAdvancedChart {
  adv_seasons : list string;
  net_ratings : list Q;
  usg_pcts : list Q;
  ts_pcts : list Q
}.

Definition with_clutch_advanced (stats : list season_data_t)
  : list (string * clutch_advanced_t) :=
  flat_map
    (fun d => match clutch_advanced d with
              | Some a => [(season d, a)]
              | None => []
              end) stats.

Definition advanced (stats : list season_data_t) : advanced_chart :=
  let rows := with_clutch_advanced stats in
  {| adv_seasons := map fst rows;
     net_ratings := map (fun r => net_rating (snd r)) rows;
     usg_pcts := map (fun r => (usg_pct (snd r) * 100)%Q) rows;
     ts_pcts := map (fun r => (ts_pct (snd r) * 100)%Q) rows |}.

(** Everything the figure of [visualize_player_analysis] shows.  The two
    middle panels are computed only for a non-empty [clutch_stats]. *)
Record figure : Type := mkFigure {
  panel_shooting : shooting_chart;
  panel_comparison : option comparison_chart;
  panel_distance : option distance_chart;
  panel_advanced : advanced_chart
}.

Definition player_figure (results : results_t) : figure :=
  let stats := clutch_stats results in
  {| panel_shooting := shooting stats;
     panel_comparison :=
       if Api.empty stats then None else comparison_bars stats;
     panel_distance :=
       if Api.empty stats then None else Some (distance_breakdown stats);
     panel_advanced := advanced stats |}.

(** The statistics of one bin, season by season, over the seasons that
    have shot distances. *)
Definition bin_column (stats : list season_data_t) (distance : string)
  : list ShotDistance.bin_stats :=
  flat_map
    (fun d => match shot_distance d with
              | Some bins =>
                  map snd (filter (fun item => String.eqb (fst item) distance)
                                  bins)
              | None => []
              end) stats.

(** The entries of a column with at least one attempt. *)
Definition with_attempts (column : list ShotDistance.bin_stats)
  : list ShotDistance.bin_stats :=
  filter (fun b => 0 <? ShotDistance.fga b) column.

(** What one season adds to the totals of a bin (lines 381-386). *)
Definition add_stats (t : distance_totals) (b : ShotDistance.bin_stats)
  : distance_totals :=
  {| d_pct_fga := fadd (d_pct_fga t) (ShotDistance.pct_fga b);
     d_fg_pct := if 0 <? ShotDistance.fga b
                 then fadd (d_fg_pct t) (ShotDistance.fg_pct b)
                 else d_fg_pct t;
     d_count := d_count t + 1;
     d_fga := if 0 <? ShotDistance.fga b
              then d_fga t + ShotDistance.fga b else d_fga t |}.

(** The totals of a bin so far; zeros before its first season. *)
Definition or_zero (g : option distance_totals) : distance_totals :=
  match g with Some t => t | None => zero_distance end.

(** The totals the chart keeps for a bin (closed form of the loop of
    lines 375-386). *)
Definition bin_totals (stats : list season_data_t) (distance : string)
  : distance_totals :=
  {| d_pct_fga := fsum (map ShotDistance.pct_fga (bin_column stats distance));
     d_fg_pct :=
       fsum (map ShotDistance.fg_pct
                 (with_attempts (bin_column stats distance)));
     d_count := Z.of_nat (List.length (bin_column stats distance));
     d_fga :=
       fold_left Z.add
         (map ShotDistance.fga (with_attempts (bin_column stats distance)))
         0 |}.

(** Every stored shot-distance dictionary has the five bins, in order. *)
Definition bins_in_order (stats : list season_data_t) : Prop :=
  Forall (fun d => forall bins, shot_distance d = Some bins ->
                                Py.keys bins = distance_order) stats.

(** The seasons that have shot distances. *)
Definition with_shot_distance (stats : list season_data_t)
  : list season_data_t :=
  filter (fun d => match shot_distance d with
                   | Some _ => true
                   | None => false
                   end) stats.

End Visualize.

(* ================================================================= *)
(** ** The environment of the scripts, and what both share *)

Module Script.
Import Api.
Local Open Scope monad_scope.

(** The outside world: the static player table, the console, the four
    endpoints.  An endpoint call stands for the request together with
    [get_data_frames()[0]]; it answers with a frame or raises.  [py_int] is
    Python's [int(s)], [None] standing for [ValueError]. *)
Record Env : Type := mkEnv {
  find_players_by_full_name : string -> outcome (list player);
  input : string -> string;
  py_int : string -> option Z;
  CommonPlayerInfo : Z -> outcome (list info_row);
  LeagueDashPlayerClutch :
    string -> forall m : measure_type, per_mode -> outcome (list (row m));
  LeagueDashPlayerStats :
    string -> season_type -> forall m : measure_type, per_mode ->
    outcome (list (row m));
  ShotChartDetail : Z -> string -> outcome (list ShotDistance.shot)
}.

(** [str(z)] *)
Definition str (z : Z) : string :=
  DecimalString.NilZero.string_of_int (Z.to_int z).

(** [str(b)] *)
Definition str_bool (b : bool) : string := if b then "True" else "False".

(** [sep.join(l)] *)
Fixpoint join (sep : string) (l : list string) : string :=
  match l with
  | [] => ""
  | [x] => x
  | x :: l' => x ++ sep ++ join sep l'
  end.

(** [s[-2:]] *)
Definition last2 (s : string) : string :=
  substring (String.length s - 2) 2 s.

(** [range(a, b)] *)
Definition range (a b : Z) : list Z :=
  map (fun i => a + Z.of_nat i) (seq 0 (Z.to_nat (b - a))).

(** The seasons used when none are given (both scripts, [current_year]
    2024). *)
Definition default_seasons : list string :=
  let current_year := 2024 in
  map (fun year => str (year - 1) ++ "-" ++ last2 (str year))
      (range (current_year - 4) (current_year + 1)).

(** The seasons a call works on: the given ones, or the default. *)
Definition requested (seasons : option (list string)) : list string :=
  match seasons with None => default_seasons | Some l => l end.

(** [l[i]] *)
Definition item {A} (l : list A) (i : Z) : outcome A :=
  match (if 0 <=? i then nth_error l (Z.to_nat i) else None) with
  | Some x => Returned x
  | None => Raised "list index out of range"
  end.

(** [enumerate(l)] *)
Definition enumerate {A} (l : list A) : list (Z * A) :=
  combine (map Z.of_nat (seq 0 (List.length l))) l.

Definition new_line : string := String (ascii_of_nat 10) "".

(** The line printed for the [i]-th entry of an ambiguous lookup. *)
Definition option_line (ip : Z * player) : string :=
  str (fst ip) ++ ": " ++ full_name (snd ip)
  ++ " (ID: " ++ str (id (snd ip))
  ++ ", Active: " ++ str_bool (is_active (snd ip)) ++ ")".

Definition prompt : string :=
  "Enter the number of the player you want to analyze: ".

Section Lookup.
Variable E : Env.
Variable H : Type.

(** The typed line is a number that indexes [player_dict]. *)
Definition valid_selection (player_dict : list player) : Prop :=
  exists n, py_int E (input E prompt) = Some n
            /\ 0 <= n < Z.of_nat (List.length player_dict).

(** The lookup answers, and leaves one player: a single match, or several
    and a valid selection. *)
Definition resolvable (player_name : string) : Prop :=
  exists player_dict,
    find_players_by_full_name E player_name = Returned player_dict
    /\ (List.length player_dict = 1%nat
        \/ ((1 < List.length player_dict)%nat
            /\ valid_selection player_dict)).

(** The lookup answers, and the player it leaves is [p]: the single
    match, or of several the one at the number typed. *)
Definition resolves_to (player_name : string) (p : player) : Prop :=
  exists player_dict,
    find_players_by_full_name E player_name = Returned player_dict
    /\ (player_dict = [p]
        \/ ((1 < List.length player_dict)%nat
            /\ exists n, py_int E (input E prompt) = Some n
                         /\ 0 <= n
                         /\ nth_error player_dict (Z.to_nat n) = Some p)).

(** The lookup answers, and leaves no player: no match, or several and an
    invalid selection. *)
Definition unresolvable (player_name : string) : Prop :=
  exists player_dict,
    find_players_by_full_name E player_name = Returned player_dict
    /\ (player_dict = []
        \/ ((1 < List.length player_dict)%nat
            /\ ~ valid_selection player_dict)).

(** The three messages that go with a [return None] of the lookup. *)
Definition refusal (player_name line : string) : Prop :=
  line = "Could not find player ID for " ++ player_name
  \/ line = "Invalid input. Please enter a number."
  \/ exists n : Z,
       line = "Invalid selection. Please enter a number between 0 and "
              ++ str n.

(** The name-to-identifier step, written out twice in the source (lines
    47-71 of clutch_player_analysis.py, 34-58 of compare_net_rating.py).
    [None] is the script's [return None]; an exception of the lookup itself
    is not handled here. *)
Definition resolve_player (player_name : string) : M H (option Z) :=
  player_dict <- call (find_players_by_full_name E player_name);;
  if empty player_dict then
    print ("Could not find player ID for " ++ player_name);;
    ret None
  else if 1 <? Z.of_nat (List.length player_dict) then
    print ("Multiple players found for " ++ player_name ++ ":");;
    for_each (enumerate player_dict) (fun ip => print (option_line ip));;
    let selection := input E prompt in
    match py_int E selection with
    | Some selection =>
        if (0 <=? selection)
           && (selection <? Z.of_nat (List.length player_dict)) then
          p <- call (item player_dict selection);;
          print ("Selected player ID: " ++ str (id p));;
          ret (Some (id p))
        else
          print ("Invalid selection. Please enter a number between 0 and "
                 ++ str (Z.of_nat (List.length player_dict) - 1));;
          ret None
    | None =>
        print "Invalid input. Please enter a number.";;
        ret None
    end
  else
    p <- call (item player_dict 0);;
    print ("Found player ID: " ++ str (id p));;
    ret (Some (id p)).

End Lookup.

End Script.

(* ================================================================= *)
(** ** clutch_player_analysis.py: [analyze_clutch_player] *)

Module ClutchPlayerAnalysis.
Import Api Analysis Script.
Local Open Scope monad_scope.

(** The variables of the function: [results], and the [season_data] of
    the iteration under way (bound anew at the top of each iteration). *)
Record vars : Type := mkVars {
  results : results_t;
  season_data : season_data_t
}.

Definition initial_vars : vars :=
  {| results := new_results "" []; season_data := new_season_data "" |}.

Definition on_results (f : results_t -> results_t) (h : vars) : vars :=
  {| results := f (results h); season_data := season_data h |}.

Definition on_season_data (f : season_data_t -> season_data_t) (h : vars)
  : vars :=
  {| results := results h; season_data := f (season_data h) |}.

Section Analyze.
Variable E : Env.

(** [plt.show()] with what the figure holds; the profile and summary lines
    printed after it are part of this display. *)
Variable show : Visualize.figure -> outcome unit.

(** [visualize_player_analysis(results)] *)
Definition visualize_player_analysis (r : results_t) : M vars unit :=
  call (show (Visualize.player_figure r)).

(** Lines 44-88: the player's identifier and physical attributes.  [None]
    is [return None]. *)
Definition get_player_info (player_name : string) : M vars (option Z) :=
  try_except
    (r <- resolve_player E player_name;;
     match r with
     | None => ret None
     | Some player_id =>
         info_df <- call (CommonPlayerInfo E player_id);;
         match info_df with
         | info :: _ =>
             update (on_results
                       (set_player_info
                          {| height := HEIGHT info; weight := WEIGHT info;
                             player_id := player_id |}));;
             ret (Some player_id)
         | [] =>
             print ("Could not find player info for " ++ player_name);;
             ret None
         end
     end)
    (fun e => print ("Error getting player info: " ++ e);; ret None).

(** Lines 100-159: the two clutch requests.  The answer is [false] on the
    script's [continue]. *)
Definition fetch_clutch (player_name season : string)
    (player_clutch : list base_row) : M vars bool :=
  match player_clutch with
  | r :: _ =>
      update (on_season_data (set_clutch_basic (make_clutch_basic r)));;
      sleep 5;;
      clutch_adv_df <- call (LeagueDashPlayerClutch E season Advanced Per36);;
      match select_player (m := Advanced) clutch_adv_df player_name with
      | a :: _ =>
          update (on_season_data
                    (set_clutch_advanced (make_clutch_advanced a)))
      | [] => ret tt
      end;;
      ret true
  | [] =>
      print ("No clutch data found for " ++ player_name ++ " in " ++ season);;
      ret false
  end.

(** Lines 163-248: the body of the inner [try]. *)
Definition fetch_shots_and_regular (player_name : string) (player_id : Z)
    (season : string) (player_clutch : list base_row) : M vars unit :=
  sleep 5;;
  shot_df <- call (ShotChartDetail E player_id season);;
  (if empty shot_df then ret tt
   else update (on_season_data
                  (set_shot_distance (ShotDistance.shot_distance shot_df))));;
  sleep 5;;
  regular_df <- call (LeagueDashPlayerStats E season Regular_Season Base Per36);;
  match select_player (m := Base) regular_df player_name, player_clutch with
  | rr :: _, rc :: _ =>
      h <- read;;
      match clutch_basic (season_data h) with
      | Some b =>
          update (on_season_data
                    (set_regular_vs_clutch (make_comparison rr rc b)))
      | None => raise "'clutch_basic'"
      end
  | _, _ => ret tt
  end.

(** Lines 92-257: one iteration of the loop over the seasons. *)
Definition process_season (player_name : string) (player_id : Z)
    (season : string) : M vars unit :=
  print (new_line ++ "Processing season: " ++ season);;
  update (on_season_data (fun _ => new_season_data season));;
  sleep 5;;
  try_except
    (clutch_df <- call (LeagueDashPlayerClutch E season Base Per36);;
     let player_clutch := select_player (m := Base) clutch_df player_name in
     proceed <- fetch_clutch player_name season player_clutch;;
     if proceed : bool then
       try_except
         (fetch_shots_and_regular player_name player_id season player_clutch)
         (fun e => print ("Error getting shot distance data: " ++ e));;
       h <- read;;
       update (on_results (append_clutch_stats (season_data h)))
     else ret tt)
    (fun e => print ("Error processing season " ++ season ++ ": " ++ e)).

Definition analyze_clutch_player (player_name : string)
    (seasons : option (list string)) : M vars (option results_t) :=
  let seasons := requested seasons in
  print ("Analyzing " ++ player_name
         ++ "'s clutch performance for seasons: " ++ join ", " seasons);;
  update (on_results (fun _ => new_results player_name seasons));;
  r <- get_player_info player_name;;
  match r with
  | None => ret None
  | Some player_id =>
      for_each seasons (process_season player_name player_id);;
      h <- read;;
      (if empty (clutch_stats (results h)) then ret tt
       else visualize_player_analysis (results h));;
      h <- read;;
      ret (Some (results h))
  end.

(** A call of the function from a fresh interpreter state. *)
Definition run (player_name : string) (seasons : option (list string))
  : outcome (option results_t) * world vars :=
  analyze_clutch_player player_name seasons
    {| stdout := []; heap := initial_vars |}.

(** One iteration on its own: what it prints and appends when it starts
    from an empty output and an empty [results]. *)
Definition season_alone (player_name : string) (player_id : Z)
    (season : string) : world vars :=
  snd (process_season player_name player_id season
         {| stdout := []; heap := initial_vars |}).

Definition season_lines (player_name : string) (player_id : Z)
    (season : string) : list string :=
  stdout (season_alone player_name player_id season).

Definition season_records (player_name : string) (player_id : Z)
    (season : string) : list season_data_t :=
  clutch_stats (results (heap (season_alone player_name player_id season))).

(** Where the fields of a stored [season_data] come from: each one that is
    present was built from a non-empty answer of its request. *)
Definition fetched (player_name : string) (player_id : Z)
    (d : season_data_t) : Prop :=
  (forall b, clutch_basic d = Some b ->
     exists df r rest,
       LeagueDashPlayerClutch E (season d) Base Per36 = Returned df
       /\ select_player (m := Base) df player_name = r :: rest
       /\ b = make_clutch_basic r)
  /\ (forall a, clutch_advanced d = Some a ->
       exists df r rest,
         LeagueDashPlayerClutch E (season d) Advanced Per36 = Returned df
         /\ select_player (m := Advanced) df player_name = r :: rest
         /\ a = make_clutch_advanced r)
  /\ (forall s, shot_distance d = Some s ->
       exists shot_df,
         ShotChartDetail E player_id (season d) = Returned shot_df
         /\ empty shot_df = false
         /\ s = ShotDistance.shot_distance shot_df)
  /\ (forall c, regular_vs_clutch d = Some c ->
       exists df r rest,
         LeagueDashPlayerStats E (season d) Regular_Season Base Per36
         = Returned df
         /\ select_player (m := Base) df player_name = r :: rest).


(** Both clutch requests were answered, there is a row for the player. *)
Definition clutch_answered (player_name season : string) (r : base_row)
  : Prop :=
  exists df rest df_adv,
    LeagueDashPlayerClutch E season Base Per36 = Returned df
    /\ select_player (m := Base) df player_name = r :: rest
    /\ LeagueDashPlayerClutch E season Advanced Per36 = Returned df_adv.

End Analyze.
End ClutchPlayerAnalysis.

(* ================================================================= *)
(** ** compare_net_rating.py *)

Module CompareNetRating.
Import Api Script.
Local Open Scope monad_scope.

(** A value of a [season_data] dictionary, and a cell of the frame made of
    them. *)
Inductive value : Type :=
| VStr (s : string)
| VNum (q : Q)
| VNone.

(** [pd.DataFrame(list_of_dicts)]: the columns are the keys in the order
    they first appear; a record that lacks a column is null there. *)
Record DataFrame : Type := mkFrame {
  columns : list string;
  records : list (Py.dict value)
}.

Definition add_column (cols : list string) (k : string) : list string :=
  if existsb (String.eqb k) cols then cols else cols ++ [k].

Definition cell (r : Py.dict value) (k : string) : value :=
  match Py.get r k with Some v => v | None => VNone end.

Definition pd_DataFrame (results : list (Py.dict value)) : DataFrame :=
  let cols := fold_left add_column (flat_map (@Py.keys value) results) [] in
  {| columns := cols;
     records := map (fun r => map (fun k => (k, cell r k)) cols) results |}.

(** *** What [visualize_net_rating_comparison] computes *)

(** [c in df.columns] *)
Definition has_column (df : DataFrame) (c : string) : bool :=
  existsb (String.eqb c) (columns df).

(** The [KeyError] of a selection of columns that are not all there, named
    by the columns asked for.  Neither script catches or prints it. *)
Definition KeyError (cols : list string) : exn :=
  "KeyError: columns not in the DataFrame, of [" ++ Script.join ", " cols
  ++ "]".

(** The lines of a melted frame: one per value column and record. *)
Definition melted (df : DataFrame) : list (value * string * value) :=
  flat_map
    (fun c => map (fun r => (cell r "Season", c, cell r c)) (records df))
    (filter (fun c => negb (String.eqb c "Season")) (columns df)).

(** [df.melt(id_vars=['Season'], var_name='Game Situation',
    value_name='NET_RATING')].  It raises [KeyError] on a frame without a
    'Season' column, as the frame made of no row at all is. *)
Definition melt (df : DataFrame)
  : outcome (list (value * string * value)) :=
  if has_column df "Season" then Returned (melted df)
  else Raised (KeyError ["Season"]).

(** The non-null numbers of a column. *)
Definition numbers (df : DataFrame) (c : string) : list Q :=
  flat_map (fun r => match cell r c with VNum q => [q] | _ => [] end)
           (records df).

Definition Qsum (l : list Q) : Q := fold_left Qplus l 0%Q.

(** [df[c].mean()]: nulls are skipped; [nan] when nothing is left. *)
Definition mean (df : DataFrame) (c : string) : fval :=
  fdiv (Fin (Qsum (numbers df c)))
       (of_Z (Z.of_nat (List.length (numbers df c)))).

(** [df[['Regular Season', 'Clutch', 'Playoffs']].mean()] (line 181). *)
Definition average_net_rating (df : DataFrame) : list (string * fval) :=
  map (fun c => (c, mean df c)) ["Regular Season"; "Clutch"; "Playoffs"].

(** What is shown: the bars, and the table of averages.  The table is
    [None] when the frame lacks one of the three columns: selecting them
    raises, and nothing is printed. *)
Record figure : Type := mkFigure {
  bars : list (value * string * value);
  averages : option (list (string * fval))
}.

Definition has_net_rating_columns (df : DataFrame) : bool :=
  forallb (has_column df) ["Regular Season"; "Clutch"; "Playoffs"].

Definition net_rating_figure (df_melted : list (value * string * value))
    (df : DataFrame) : figure :=
  {| bars := df_melted;
     averages := if has_net_rating_columns df
                 then Some (average_net_rating df) else None |}.

(** *** [compare_net_rating] *)

(** The variables of the function: [results], and the [season_data] of the
    iteration under way. *)
Record vars : Type := mkVars {
  results : list (Py.dict value);
  season_data : Py.dict value
}.

Definition initial_vars : vars := {| results := []; season_data := [] |}.

(** [season_data[k] = v] *)
Definition store (k : string) (v : value) (h : vars) : vars :=
  {| results := results h; season_data := Py.set (season_data h) k v |}.

Definition net_rating_columns : list string :=
  ["Regular Season"; "Clutch"; "Playoffs"].

(** The keys of a finished [season_data], in the order they are set. *)
Definition columns4 : list string := "Season" :: net_rating_columns.

(** A finished [season_data]. *)
Definition season_row (season : string) (regular clutch playoffs : value)
  : Py.dict value :=
  [("Season", VStr season); ("Regular Season", regular);
   ("Clutch", clutch); ("Playoffs", playoffs)].

Section Compare.
Variable E : Env.

(** The bar plot, [plt.show()] and the two tables printed after it. *)
Variable show : figure -> outcome unit.

(** [visualize_net_rating_comparison(df, player_name)].  No handler
    surrounds the melting of the frame, the display, or the selection of
    the three columns for the averages (lines 157, 160-173, 181). *)
Definition visualize_net_rating_comparison (df : DataFrame)
    (player_name : string) : M vars unit :=
  df_melted <- call (melt df);;
  call (show (net_rating_figure df_melted df));;
  if has_net_rating_columns df then ret tt
  else raise (KeyError ["Regular Season"; "Clutch"; "Playoffs"]).

(** One of the three [try] blocks of an iteration (lines 69-85, 88-106,
    109-125): [column] is the key written, [what] the words of the two
    messages. *)
Definition fetch_net_rating (player_name season column what_none what_error
    : string) (request : outcome (list adv_row)) : M vars unit :=
  try_except
    (df <- call request;;
     match select_player (m := Advanced) df player_name with
     | r :: _ => update (store column (VNum (NET_RATING r)))
     | [] =>
         print ("No " ++ what_none ++ " data found for " ++ player_name
                ++ " in " ++ season);;
         update (store column VNone)
     end)
    (fun e =>
       print ("Error getting " ++ what_error ++ " stats: " ++ e);;
       update (store column VNone)).

(** Lines 65-131: one iteration of the loop over the seasons. *)
Definition process_season (player_name season : string) : M vars unit :=
  print (new_line ++ "Processing season: " ++ season);;
  update (fun h => {| results := results h;
                      season_data := [("Season", VStr season)] |});;
  fetch_net_rating player_name season "Regular Season"
    "regular season" "regular season"
    (LeagueDashPlayerStats E season Regular_Season Advanced Default_mode);;
  fetch_net_rating player_name season "Clutch" "clutch" "clutch"
    (LeagueDashPlayerClutch E season Advanced Default_mode);;
  fetch_net_rating player_name season "Playoffs" "playoff" "playoff"
    (LeagueDashPlayerStats E season Playoffs Advanced Default_mode);;
  update (fun h => {| results := results h ++ [season_data h];
                      season_data := season_data h |});;
  sleep 1.

Definition compare_net_rating (player_name : string)
    (seasons : option (list string)) : M vars (option DataFrame) :=
  let seasons := requested seasons in
  print ("Comparing " ++ player_name ++ "'s NET_RATING for seasons: "
         ++ join ", " seasons);;
  r <- resolve_player E player_name;;
  match r with
  | None => ret None
  | Some player_id =>
      update (fun h => {| results := []; season_data := season_data h |});;
      for_each seasons (process_season player_name);;
      h <- read;;
      let results_df := pd_DataFrame (results h) in
      visualize_net_rating_comparison results_df player_name;;
      ret (Some results_df)
  end.

(** A call of the function from a fresh interpreter state. *)
Definition run (player_name : string) (seasons : option (list string))
  : outcome (option DataFrame) * world vars :=
  compare_net_rating player_name seasons
    {| stdout := []; heap := initial_vars |}.

(** One iteration on its own: what it prints and appends when it starts
    from an empty output and an empty [results]. *)
Definition season_alone (player_name season : string) : world vars :=
  snd (process_season player_name season
         {| stdout := []; heap := initial_vars |}).

Definition season_lines (player_name season : string) : list string :=
  stdout (season_alone player_name season).

Definition season_rows (player_name season : string)
  : list (Py.dict value) :=
  results (heap (season_alone player_name season)).

(** The request behind each of the three NET_RATING columns. *)
Definition request (season column : string) : outcome (list adv_row) :=
  if String.eqb column "Regular Season" then
    LeagueDashPlayerStats E season Regular_Season Advanced Default_mode
  else if String.eqb column "Clutch" then
    LeagueDashPlayerClutch E season Advanced Default_mode
  else
    LeagueDashPlayerStats E season Playoffs Advanced Default_mode.

(** What a column holds, by the answer of its request: the player's
    NET_RATING, or null when the request failed or had no row for them. *)
Definition stored (player_name : string) (req : outcome (list adv_row))
    (v : value) : Prop :=
  match req with
  | Returned df =>
      match select_player (m := Advanced) df player_name with
      | r :: _ => v = VNum (NET_RATING r)
      | [] => v = VNone
      end
  | Raised _ => v = VNone
  end.

(** A row of the result for [season]: the four keys, each value as its
    own request answered. *)
Definition fetched_row (player_name season : string) (r : Py.dict value)
  : Prop :=
  exists regular clutch playoffs,
    r = season_row season regular clutch playoffs
    /\ stored player_name (request season "Regular Season") regular
    /\ stored player_name (request season "Clutch") clutch
    /\ stored player_name (request season "Playoffs") playoffs.

(** The words of the handler's message for a column. *)
Definition request_name (column : string) : string :=
  if String.eqb column "Regular Season" then "regular season"
  else if String.eqb column "Clutch" then "clutch"
  else "playoff".

End Compare.

End CompareNetRating.

(* ================================================================= *)
(** ** Concrete environments *)

Module Examples.
Import Api Analysis Script ShotDistance.

Definition paul : player :=
  {| id := 101108; full_name := "Chris Paul"; is_active := true |}.

Definition paul_base (ast tov : Q) : base_row :=
  {| b_PLAYER_NAME := "Chris Paul"; GP := 30; MIN := 36; PTS := 20;
     FG_PCT := 1 # 2; FG3_PCT := 2 # 5; FT_PCT := 9 # 10;
     AST := ast; TOV := tov; STL := 2; BLK := 0; PLUS_MINUS := -3 |}.

Definition paul_adv : adv_row :=
  {| a_PLAYER_NAME := "Chris Paul"; USG_PCT := 1 # 4; TS_PCT := 3 # 5;
     NET_RATING := 5; OFF_RATING := 115; DEF_RATING := 110;
     AST_PCT := Some (2 # 5); PIE := 3 # 20 |}.

(** Two attempts from 2 ft in 2020-21, one from 5 ft in 2021-22, and in
    any other season a single shot recorded at 0 ft. *)
Definition shots_of (season : string) : list shot :=
  if String.eqb season "2020-21" then [mkShot 2 1; mkShot 2 0]
  else if String.eqb season "2021-22" then [mkShot 5 1]
  else [mkShot 0 1].

(** Every request is answered, with one row for the player. *)
Definition nominal : Env :=
  {| find_players_by_full_name := fun _ => Returned [paul];
     input := fun _ => "0";
     py_int := fun _ => Some 0;
     CommonPlayerInfo := fun _ => Returned [mkInfo "6-0" "175"];
     LeagueDashPlayerClutch := fun _ m _ =>
       match m with
       | Base => Returned [paul_base 9 2]
       | Advanced => Returned [paul_adv]
       end;
     LeagueDashPlayerStats := fun _ _ m _ =>
       match m with
       | Base => Returned [paul_base 10 0]
       | Advanced => Returned [paul_adv]
       end;
     ShotChartDetail := fun _ season => Returned (shots_of season) |}.

(** A display that never fails. *)
Definition show_ok {A} (f : A) : outcome unit := Returned tt.

(** The shot-chart endpoint is down; every other request is answered. *)
Definition shot_chart_down : Env :=
  {| find_players_by_full_name := find_players_by_full_name nominal;
     input := input nominal;
     py_int := py_int nominal;
     CommonPlayerInfo := CommonPlayerInfo nominal;
     LeagueDashPlayerClutch := LeagueDashPlayerClutch nominal;
     LeagueDashPlayerStats := LeagueDashPlayerStats nominal;
     ShotChartDetail := fun _ _ => Raised "Read timed out." |}.

(** The clutch endpoint is down in 2021-22 only. *)
Definition clutch_down_once : Env :=
  {| find_players_by_full_name := find_players_by_full_name nominal;
     input := input nominal;
     py_int := py_int nominal;
     CommonPlayerInfo := CommonPlayerInfo nominal;
     LeagueDashPlayerClutch := fun season m p =>
       if String.eqb season "2021-22" then Raised "Read timed out."
       else LeagueDashPlayerClutch nominal season m p;
     LeagueDashPlayerStats := LeagueDashPlayerStats nominal;
     ShotChartDetail := ShotChartDetail nominal |}.

(** The player's team missed the playoffs: the playoff frames have no row
    for them. *)
Definition missed_playoffs : Env :=
  {| find_players_by_full_name := find_players_by_full_name nominal;
     input := input nominal;
     py_int := py_int nominal;
     CommonPlayerInfo := CommonPlayerInfo nominal;
     LeagueDashPlayerClutch := LeagueDashPlayerClutch nominal;
     LeagueDashPlayerStats := fun season st m p =>
       match st with
       | Playoffs => Returned []
       | Regular_Season => LeagueDashPlayerStats nominal season st m p
       end;
     ShotChartDetail := ShotChartDetail nominal |}.

(** Nobody goes by the name. *)
Definition nobody : Env :=
  {| find_players_by_full_name := fun _ => Returned [];
     input := input nominal;
     py_int := py_int nominal;
     CommonPlayerInfo := CommonPlayerInfo nominal;
     LeagueDashPlayerClutch := LeagueDashPlayerClutch nominal;
     LeagueDashPlayerStats := LeagueDashPlayerStats nominal;
     ShotChartDetail := ShotChartDetail nominal |}.

(** Two players go by the name, and the user types a word. *)
Definition namesakes : Env :=
  {| find_players_by_full_name := fun _ =>
       Returned [paul; {| id := 7; full_name := "Chris Paul";
                          is_active := false |}];
     input := fun _ => "the first";
     py_int := fun _ => None;
     CommonPlayerInfo := CommonPlayerInfo nominal;
     LeagueDashPlayerClutch := LeagueDashPlayerClutch nominal;
     LeagueDashPlayerStats := LeagueDashPlayerStats nominal;
     ShotChartDetail := ShotChartDetail nominal |}.

(** The player-info request of this one player times out; any other
    player's is answered. *)
Definition info_down : Env :=
  {| find_players_by_full_name := find_players_by_full_name nominal;
     input := input nominal;
     py_int := py_int nominal;
     CommonPlayerInfo := fun player_id =>
       if player_id =? id paul then Raised "Read timed out."
       else CommonPlayerInfo nominal player_id;
     LeagueDashPlayerClutch := LeagueDashPlayerClutch nominal;
     LeagueDashPlayerStats := LeagueDashPlayerStats nominal;
     ShotChartDetail := ShotChartDetail nominal |}.

(** The lookup takes the name for a pattern and rejects it. *)
Definition lookup_broken : Env :=
  {| find_players_by_full_name := fun _ =>
       Raised "missing ), unterminated subpattern";
     input := input nominal;
     py_int := py_int nominal;
     CommonPlayerInfo := CommonPlayerInfo nominal;
     LeagueDashPlayerClutch := LeagueDashPlayerClutch nominal;
     LeagueDashPlayerStats := LeagueDashPlayerStats nominal;
     ShotChartDetail := ShotChartDetail nominal |}.

End Examples.

(* ================================================================= *)
(** * Properties *)

Import Api Analysis Script.
Unset Implicit Arguments.

(** Case analysis on the next answer, list or test a computation looks at. *)
Ltac split_match :=
  match goal with
  | |- context [match ?x with _ => _ end] =>
      match type of x with
      | outcome _ => destruct x eqn:?
      | list _ => destruct x eqn:?
      | bool => destruct x eqn:?
      | option _ => destruct x eqn:?
      end
  end.

(** ** Arithmetic on [fval] *)

Lemma Qzero_b_inject_Z (z : Z) : Qzero_b (inject_Z z) = (z =? 0).
Proof. reflexivity. Qed.

Lemma Qpos_b_spec (q : Q) : Qpos_b q = true <-> (0 < q)%Q.
Proof.
  unfold Qpos_b, Qlt. cbn. rewrite Z.mul_1_r. apply Z.ltb_lt.
Qed.

Lemma Qpos_b_false (q : Q) : Qpos_b q = false <-> (q <= 0)%Q.
Proof.
  unfold Qpos_b, Qle. cbn. rewrite Z.mul_1_r. apply Z.ltb_ge.
Qed.

Lemma Qzero_b_spec (q : Q) : Qzero_b q = true <-> (q == 0)%Q.
Proof.
  unfold Qzero_b, Qeq. cbn. rewrite Z.mul_1_r. apply Z.eqb_eq.
Qed.

(** ** Shot-distance bins *)

Section ShotBins.
Import ShotDistance.

Lemma DISTANCE_BIN_None (s : shot) :
  DISTANCE_BIN s = None <-> (SHOT_DISTANCE s <= 0 \/ 40 < SHOT_DISTANCE s).
Proof.
  unfold DISTANCE_BIN, pd_cut, bins, labels, cut_from.
  repeat match goal with
         | |- context [if ?b then _ else _] => destruct b eqn:?
         end;
    split; intros; try discriminate; try reflexivity; lia.
Qed.

Lemma in_bin_outside (s : shot) (l : string) :
  DISTANCE_BIN s = None -> in_bin l s = false.
Proof. unfold in_bin. now intros ->. Qed.

Lemma group_skip (l1 l2 : list shot) (s : shot) (l : string) :
  DISTANCE_BIN s = None -> group (l1 ++ s :: l2) l = group (l1 ++ l2) l.
Proof.
  intros Hs. unfold group. rewrite !filter_app. cbn.
  now rewrite (in_bin_outside s l Hs).
Qed.

End ShotBins.

Section Frequencies.
Import ShotDistance.

Lemma shot_distance_unfold (shot_df : list shot) :
  shot_distance shot_df =
  [("0-3_ft", row_stats shot_df "0-3 ft");
   ("3-10_ft", row_stats shot_df "3-10 ft");
   ("10-16_ft", row_stats shot_df "10-16 ft");
   ("16-23_ft", row_stats shot_df "16-23 ft");
   ("23+_ft", row_stats shot_df "23+ ft")].
Proof. reflexivity. Qed.

End Frequencies.

(** ** The monad *)

Section MonadFacts.
Context {H : Type}.

Lemma for_each_print {A : Type} (f : A -> string) (l : list A) (w : world H) :
  for_each l (fun x => print (f x)) w =
  (Returned tt, {| stdout := stdout w ++ map f l; heap := heap w |}).
Proof.
  revert w. induction l as [|x l IH]; intros [out h]; cbn.
  - unfold ret. now rewrite app_nil_r.
  - unfold bind, print. cbn. rewrite IH. cbn.
    now rewrite <- app_assoc.
Qed.

End MonadFacts.

(** ** Resolving the player name *)

Section Resolve.
Variable E : Env.
Context {H : Type}.

Lemma resolve_player_no_match (name : string) (w : world H) :
  find_players_by_full_name E name = Returned [] ->
  resolve_player E name w =
  (Returned None,
   {| stdout := stdout w ++ ["Could not find player ID for " ++ name];
      heap := heap w |}).
Proof.
  intros Hf. unfold resolve_player, bind, call. rewrite Hf. reflexivity.
Qed.

Lemma resolve_player_invalid (name : string) (player_dict : list player)
    (w : world H) :
  find_players_by_full_name E name = Returned player_dict ->
  (1 < List.length player_dict)%nat ->
  ~ valid_selection E player_dict ->
  exists line,
    resolve_player E name w =
    (Returned None,
     {| stdout := stdout w
                  ++ ("Multiple players found for " ++ name ++ ":")
                     :: map option_line (enumerate player_dict)
                  ++ [line];
        heap := heap w |})
    /\ (line = "Invalid input. Please enter a number."
        \/ line = "Invalid selection. Please enter a number between 0 and "
                  ++ str (Z.of_nat (List.length player_dict) - 1)).
Proof.
  intros Hf Hlen Hinv. unfold resolve_player, bind, call. rewrite Hf.
  destruct player_dict as [|p [|q l]]; cbn in Hlen; try lia.
  cbn [empty].
  replace (1 <? Z.of_nat (List.length (p :: q :: l))) with true
    by (symmetry; apply Z.ltb_lt; cbn [List.length]; lia).
  unfold print at 1. cbn [stdout heap].
  rewrite for_each_print. cbn [stdout heap].
  destruct (py_int E _) as [n|] eqn:Hn.
  - destruct ((0 <=? n) && (n <? _)) eqn:Hr.
    + exfalso. apply Hinv. exists n. split; [exact Hn|].
      apply andb_prop in Hr. destruct Hr as [H0 H1].
      apply Z.leb_le in H0. apply Z.ltb_lt in H1. lia.
    + eexists. split; [|right; reflexivity].
      unfold print, ret. cbn [stdout heap]. now rewrite <- !app_assoc.
  - eexists. split; [|left; reflexivity].
    unfold print, ret. cbn [stdout heap]. now rewrite <- !app_assoc.
Qed.

End Resolve.

Section ResolveHeap.
Variable E : Env.
Context {H : Type}.

(** Resolving the name prints, and touches no variable. *)
Lemma resolve_player_heap (name : string) (w : world H) :
  heap (snd (resolve_player E name w)) = heap w.
Proof.
  unfold resolve_player, bind, call.
  destruct (find_players_by_full_name E name) as [player_dict|e];
    [|reflexivity].
  destruct (empty player_dict); [reflexivity|].
  destruct (1 <? _).
  - unfold print at 1. cbn [stdout heap]. rewrite for_each_print.
    destruct (py_int E _) as [n|]; [|reflexivity].
    destruct (_ && _); [|reflexivity].
    destruct (item player_dict n); reflexivity.
  - destruct (item player_dict 0); reflexivity.
Qed.

End ResolveHeap.

(** ** One season of [analyze_clutch_player] *)

Section SeasonOfAnalysis.
Import ClutchPlayerAnalysis.
Variable E : Env.
Variables (player_name : string) (player_id : Z).

Ltac run_monad :=
  cbv [season_records season_lines season_alone
       process_season fetch_clutch fetch_shots_and_regular
       bind ret raise try_except print call read update sleep
       on_results on_season_data initial_vars] in *;
  cbn [stdout heap results season_data fst snd] in *.

Ltac simpl_fields :=
  cbn [stdout heap results season_data fst snd
       season clutch_basic clutch_advanced shot_distance regular_vs_clutch
       set_clutch_basic set_clutch_advanced set_shot_distance
       set_regular_vs_clutch new_season_data
       clutch_stats append_clutch_stats new_results
       player_name seasons player_info] in *.

Ltac all_cases := run_monad; repeat (split_match; simpl_fields).

(** No exception leaves an iteration; it only adds to the output and to
    [clutch_stats], and what it adds does not depend on what was there. *)
Lemma process_season_frame (season : string) (w : world vars) :
  process_season E player_name player_id season w =
  (Returned tt,
   {| stdout := stdout w ++ season_lines E player_name player_id season;
      heap :=
        {| results :=
             fold_left (fun r d => append_clutch_stats d r)
               (season_records E player_name player_id season)
               (results (heap w));
           season_data :=
             season_data (heap (season_alone E player_name player_id season))
        |} |}).
Proof.
  destruct w as [out [res sd]]. all_cases;
    try discriminate;
    rewrite <- ?app_assoc; reflexivity.
Qed.

(** An iteration stores at most one record, for its own season, and every
    field of the record comes from a non-empty answer. *)
Lemma season_records_fetched (season : string) (d : season_data_t) :
  In d (season_records E player_name player_id season) ->
  season_records E player_name player_id season = [d]
  /\ Analysis.season d = season
  /\ fetched E player_name player_id d.
Proof.
  unfold fetched. all_cases; intros HIn;
    try contradiction; try discriminate;
    destruct HIn as [<-|[]]; simpl_fields;
    repeat split; intros; try discriminate;
    repeat match goal with
           | H : Some _ = Some _ |- _ => injection H as <-
           end;
    eauto 8.
Qed.




End SeasonOfAnalysis.

Section MonadSteps.
Context {H : Type}.

Lemma bind_returned {A B : Type} (m : M H A) (k : A -> M H B) (a : A)
    (w w' : world H) :
  m w = (Returned a, w') -> bind m k w = k a w'.
Proof. unfold bind. now intros ->. Qed.

Lemma bind_raised {A B : Type} (m : M H A) (k : A -> M H B) (e : exn)
    (w w' : world H) :
  m w = (Raised e, w') -> bind m k w = (Raised e, w').
Proof. unfold bind. now intros ->. Qed.

Lemma bind_print {B : Type} (s : string) (k : unit -> M H B) (w : world H) :
  bind (print s) k w = k tt {| stdout := stdout w ++ [s]; heap := heap w |}.
Proof. reflexivity. Qed.

Lemma bind_update {B : Type} (f : H -> H) (k : unit -> M H B) (w : world H) :
  bind (update f) k w = k tt {| stdout := stdout w; heap := f (heap w) |}.
Proof. reflexivity. Qed.

Lemma bind_read {B : Type} (k : H -> M H B) (w : world H) :
  bind read k w = k (heap w) w.
Proof. reflexivity. Qed.

End MonadSteps.

(** ** The whole of [analyze_clutch_player] *)

Section WholeAnalysis.
Import ClutchPlayerAnalysis.
Variable E : Env.
Variable show : Visualize.figure -> outcome unit.
Variable player_name : string.

Lemma append_all (l : list season_data_t) (r : results_t) :
  fold_left (fun r d => append_clutch_stats d r) l r =
  {| Analysis.player_name := Analysis.player_name r;
     seasons := seasons r;
     player_info := player_info r;
     clutch_stats := clutch_stats r ++ l;
     results_shot_distance := results_shot_distance r;
     results_regular_vs_clutch := results_regular_vs_clutch r |}.
Proof.
  revert r. induction l as [|d l IH]; intros r; cbn [fold_left].
  - rewrite app_nil_r. now destruct r.
  - rewrite IH. unfold append_clutch_stats.
    cbn [Analysis.player_name seasons player_info clutch_stats
         results_shot_distance results_regular_vs_clutch].
    now rewrite <- app_assoc.
Qed.

(** The loop over the seasons: the iterations add up. *)
Lemma seasons_loop (player_id : Z) (ss : list string) (w : world vars) :
  exists d,
    for_each ss (process_season E player_name player_id) w =
    (Returned tt,
     {| stdout := stdout w ++ flat_map (season_lines E player_name player_id) ss;
        heap :=
          {| results :=
               fold_left (fun r d => append_clutch_stats d r)
                 (flat_map (season_records E player_name player_id) ss)
                 (results (heap w));
             season_data := d |} |}).
Proof.
  revert w. induction ss as [|s ss IH]; intros w.
  - exists (season_data (heap w)). cbn. unfold ret.
    rewrite app_nil_r. now destruct w as [out [res d]].
  - cbn [for_each flat_map]. unfold bind.
    rewrite process_season_frame.
    destruct (IH {| stdout := stdout w ++ season_lines E player_name player_id s;
                    heap :=
                      {| results :=
                           fold_left (fun r d => append_clutch_stats d r)
                             (season_records E player_name player_id s)
                             (results (heap w));
                         season_data :=
                           season_data
                             (heap (season_alone E player_name player_id s))
                      |} |}) as (d & ->).
    exists d. cbn [stdout heap results]. now rewrite fold_left_app, app_assoc.
Qed.

(** The first step never raises: every exception ends in its handler. *)
Lemma get_player_info_returns (w : world vars) :
  exists o w',
    get_player_info E player_name w = (Returned o, w')
    /\ season_data (heap w') = season_data (heap w)
    /\ match o with
       | None => results (heap w') = results (heap w)
       | Some pid =>
           exists info,
             player_id info = pid
             /\ results (heap w') = set_player_info info (results (heap w))
       end.
Proof.
  unfold get_player_info, try_except, bind.
  pose proof (resolve_player_heap E player_name w) as Hh.
  destruct (resolve_player E player_name w) as [[[pid|]|e] w1];
    cbn [snd] in Hh;
    [unfold call; destruct (CommonPlayerInfo E pid) as [[|info df]|e]| |];
    unfold print, ret, update, on_results;
    cbn [stdout heap results season_data];
    do 2 eexists; (split; [reflexivity|]);
    cbn [stdout heap results season_data]; rewrite Hh;
    (split; [reflexivity|]); try reflexivity.
  eexists. split; [|reflexivity]. reflexivity.
Qed.

(** What a call amounts to: [None] when the player is not resolved,
    otherwise the records and lines of the seasons, in order, after a
    header; only the display can still raise. *)
Lemma run_cases (seasons : option (list string)) :
  (exists w, run E show player_name seasons = (Returned None, w))
  \/ exists info header d,
       let pid := player_id info in
       let ss := requested seasons in
       let r :=
         {| Analysis.player_name := player_name;
            Analysis.seasons := ss;
            player_info := Some info;
            clutch_stats := flat_map (season_records E player_name pid) ss;
            results_shot_distance := [];
            results_regular_vs_clutch := [] |} in
       run E show player_name seasons =
       ((if empty (clutch_stats r) then Returned (Some r)
         else match show (Visualize.player_figure r) with
              | Returned _ => Returned (Some r)
              | Raised e => Raised e
              end),
        {| stdout := header ++ flat_map (season_lines E player_name pid) ss;
           heap := {| results := r; season_data := d |} |}).
Proof.
  unfold run, analyze_clutch_player.
  set (ss := requested seasons).
  rewrite bind_print, bind_update.
  match goal with
  | |- context [bind (get_player_info E player_name) _ ?w] =>
      destruct (get_player_info_returns w) as (o & w1 & Hg & Hd & Ho);
      rewrite (bind_returned _ _ _ _ _ Hg)
  end.
  destruct o as [pid|].
  - right. destruct Ho as (info & <- & Hr).
    cbn [stdout heap results on_results initial_vars] in Hr.
    destruct (seasons_loop (player_id info) ss w1) as (d & Hloop).
    exists info, (stdout w1), d. cbn zeta.
    rewrite (bind_returned _ _ _ _ _ Hloop), bind_read.
    cbn [heap results]. rewrite Hr, append_all.
    cbn [Analysis.player_name Analysis.seasons player_info clutch_stats
         results_shot_distance results_regular_vs_clutch
         set_player_info new_results app].
    destruct (empty _).
    + reflexivity.
    + unfold bind, visualize_player_analysis, call, read, ret.
      destruct (show _) as [[]|e]; reflexivity.
  - left. eexists. reflexivity.
Qed.

End WholeAnalysis.

(** ** One season of [compare_net_rating] *)

Section SeasonOfComparison.
Import CompareNetRating.
Variable E : Env.
Variable player_name : string.

Ltac run_compare :=
  cbv [season_rows season_lines season_alone process_season
       fetch_net_rating store
       bind ret raise try_except print call read update sleep
       initial_vars] in *;
  cbn [stdout heap results season_data fst snd] in *.

Lemma process_season_frame_net (season : string) (w : world vars) :
  process_season E player_name season w =
  (Returned tt,
   {| stdout := stdout w ++ season_lines E player_name season;
      heap :=
        {| results := results (heap w) ++ season_rows E player_name season;
           season_data := season_data (heap (season_alone E player_name season))
        |} |}).
Proof.
  destruct w as [out [res d]]. run_compare.
  repeat (split_match; cbn [stdout heap results season_data fst snd]);
    rewrite <- ?app_assoc; reflexivity.
Qed.

(** An iteration always appends one row, with the four keys; each of the
    three values is what its own request gave. *)
Lemma season_rows_shape (season : string) :
  exists v1 v2 v3,
    season_rows E player_name season = [season_row season v1 v2 v3]
    /\ stored player_name (request E season "Regular Season") v1
    /\ stored player_name (request E season "Clutch") v2
    /\ stored player_name (request E season "Playoffs") v3.
Proof.
  unfold stored, request.
  cbn [String.eqb Ascii.eqb Bool.eqb].
  run_compare.
  repeat (split_match; cbn [stdout heap results season_data fst snd]);
    do 3 eexists; (split; [reflexivity|]); repeat split; reflexivity.
Qed.


End SeasonOfComparison.

(** ** Resolved and unresolved names *)

Section Resolution.
Variable E : Env.
Context {H : Type}.

Lemma item_in_range {A : Type} (l : list A) (n : Z) :
  0 <= n < Z.of_nat (List.length l) -> exists x, item l n = Returned x.
Proof.
  intros Hn. unfold item.
  replace (0 <=? n) with true by (symmetry; apply Z.leb_le; lia).
  destruct (nth_error l (Z.to_nat n)) as [x|] eqn:Hx; [now exists x|].
  apply nth_error_None in Hx. lia.
Qed.

Lemma resolve_player_unresolvable (name : string) (w : world H) :
  unresolvable E name ->
  exists out line,
    resolve_player E name w =
    (Returned None, {| stdout := stdout w ++ out ++ [line]; heap := heap w |})
    /\ refusal name line.
Proof.
  intros (player_dict & Hf & [->|[Hlen Hinv]]).
  - exists [], ("Could not find player ID for " ++ name).
    split; [now apply resolve_player_no_match | now left].
  - destruct (resolve_player_invalid E name player_dict w Hf Hlen Hinv)
      as (line & Hrun & Hline).
    exists (("Multiple players found for " ++ name ++ ":")
            :: map option_line (enumerate player_dict)), line.
    split; [exact Hrun|].
    destruct Hline as [->| ->]; [right; now left|right; right; eauto].
Qed.

Lemma resolve_player_resolvable (name : string) (w : world H) :
  resolvable E name ->
  exists pid w',
    resolve_player E name w = (Returned (Some pid), w')
    /\ heap w' = heap w.
Proof.
  intros (player_dict & Hf & Hcases).
  unfold resolve_player, bind, call. rewrite Hf.
  destruct Hcases as [Hone|[Hlen (n & Hn & Hrange)]].
  - destruct player_dict as [|p [|q l]]; try discriminate.
    cbn. unfold ret. do 2 eexists. split; reflexivity.
  - destruct player_dict as [|p l]; [cbn in Hlen; lia|].
    cbn [empty].
    replace (1 <? Z.of_nat (List.length (p :: l))) with true
      by (symmetry; apply Z.ltb_lt; lia).
    unfold print at 1. cbn [stdout heap]. rewrite for_each_print.
    rewrite Hn.
    replace ((0 <=? n) && (n <? Z.of_nat (List.length (p :: l)))) with true
      by (symmetry; apply andb_true_intro; split;
          [apply Z.leb_le|apply Z.ltb_lt]; lia).
    destruct (item_in_range (p :: l) n Hrange) as (x & ->).
    unfold print, ret. cbn [stdout heap snd].
    do 2 eexists. split; reflexivity.
Qed.

Lemma resolve_player_resolves_to (name : string) (p : player)
    (w : world H) :
  resolves_to E name p ->
  exists w',
    resolve_player E name w = (Returned (Some (id p)), w')
    /\ heap w' = heap w.
Proof.
  intros (player_dict & Hf & Hcases).
  unfold resolve_player, bind, call. rewrite Hf.
  destruct Hcases as [->|[Hlen (n & Hn & Hpos & Hnth)]].
  - cbn. unfold ret. eexists. split; reflexivity.
  - assert (Hrange : n < Z.of_nat (List.length player_dict)).
    { assert (Hlt : (Z.to_nat n < List.length player_dict)%nat)
        by (apply nth_error_Some; congruence).
      lia. }
    destruct player_dict as [|q l]; [cbn in Hlen; lia|].
    cbn [empty].
    replace (1 <? Z.of_nat (List.length (q :: l))) with true
      by (symmetry; apply Z.ltb_lt; lia).
    unfold print at 1. cbn [stdout heap]. rewrite for_each_print.
    rewrite Hn.
    replace ((0 <=? n) && (n <? Z.of_nat (List.length (q :: l)))) with true
      by (symmetry; apply andb_true_intro; split;
          [apply Z.leb_le|apply Z.ltb_lt]; lia).
    assert (Hitem : item (q :: l) n = Returned p).
    { unfold item.
      replace (0 <=? n) with true by (symmetry; apply Z.leb_le; lia).
      now rewrite Hnth. }
    rewrite Hitem. unfold print, ret. cbn [stdout heap snd].
    eexists. split; reflexivity.
Qed.

End Resolution.

(** ** The whole of [compare_net_rating] *)

Section WholeComparison.
Import CompareNetRating.
Variable E : Env.
Variable show : figure -> outcome unit.
Variable player_name : string.

Lemma reindex_row (r : Py.dict value) :
  Py.keys r = columns4 -> map (fun k => (k, cell r k)) columns4 = r.
Proof.
  intros Hr.
  destruct r as [|[k1 v1] [|[k2 v2] [|[k3 v3] [|[k4 v4] [|]]]]];
    try discriminate.
  injection Hr as -> -> -> ->. reflexivity.
Qed.

(** A frame made of finished rows has their four columns and the rows
    themselves, in order. *)
Lemma pd_DataFrame_rows (rows : list (Py.dict value)) :
  Forall (fun r => Py.keys r = columns4) rows ->
  pd_DataFrame rows =
  {| columns := if empty rows then [] else columns4; records := rows |}.
Proof.
  intros Hrows. unfold pd_DataFrame.
  assert (Hkeep : forall l : list (Py.dict value),
             Forall (fun r => Py.keys r = columns4) l ->
             fold_left add_column (flat_map (@Py.keys value) l) columns4
             = columns4).
  { induction 1 as [|r l Hr _ IH]; [reflexivity|].
    cbn [flat_map]. rewrite fold_left_app, Hr. exact IH. }
  assert (Hsame : map (fun r => map (fun k => (k, cell r k)) columns4) rows
                  = rows).
  { induction Hrows as [|r l Hr _ IH]; [reflexivity|].
    cbn [map]. now rewrite IH, (reindex_row r Hr). }
  destruct Hrows as [|r l Hr Hl]; [reflexivity|].
  cbn [flat_map empty]. rewrite fold_left_app, Hr.
  change (fold_left add_column columns4 []) with columns4.
  rewrite (Hkeep l Hl). now rewrite Hsame.
Qed.

(** The loop over the seasons: the iterations add up. *)
Lemma net_rating_loop (ss : list string) (w : world vars) :
  exists d,
    for_each ss (process_season E player_name) w =
    (Returned tt,
     {| stdout := stdout w ++ flat_map (season_lines E player_name) ss;
        heap :=
          {| results :=
               results (heap w) ++ flat_map (season_rows E player_name) ss;
             season_data := d |} |}).
Proof.
  revert w. induction ss as [|s ss IH]; intros w.
  - exists (season_data (heap w)). cbn. unfold ret.
    rewrite !app_nil_r. now destruct w as [out [res d]].
  - cbn [for_each flat_map]. unfold bind.
    rewrite process_season_frame_net.
    match goal with
    | |- context [for_each ss _ ?w1] => destruct (IH w1) as (d & ->)
    end.
    exists d. cbn [stdout heap results]. now rewrite !app_assoc.
Qed.

(** One row per season, in the order of the seasons. *)
Lemma season_rows_all (ss : list string) :
  Forall2 (fetched_row E player_name) ss
          (flat_map (season_rows E player_name) ss).
Proof.
  induction ss as [|s ss IH]; [constructor|].
  cbn [flat_map].
  destruct (season_rows_shape E player_name s)
    as (v1 & v2 & v3 & -> & H1 & H2 & H3).
  cbn [app]. constructor; [|exact IH].
  exists v1, v2, v3. auto.
Qed.

Lemma fetched_row_keys (s : string) (r : Py.dict value) :
  fetched_row E player_name s r ->
  Py.keys r = columns4 /\ cell r "Season" = VStr s.
Proof. intros (v1 & v2 & v3 & -> & _). split; reflexivity. Qed.

Lemma season_rows_keys (ss : list string) :
  Forall (fun r => Py.keys r = columns4)
         (flat_map (season_rows E player_name) ss).
Proof.
  induction (season_rows_all ss) as [|s r l l' Hr _ IH]; constructor;
    [apply (fetched_row_keys s r Hr) | exact IH].
Qed.

(** The visualisation of a frame that has the four columns: only the
    display can raise. *)
Lemma visualize_with_columns (df : DataFrame) (name : string)
    (w : world vars) :
  columns df = columns4 ->
  has_net_rating_columns df = true
  /\ visualize_net_rating_comparison show df name w =
     (match show (net_rating_figure (melted df) df) with
      | Returned _ => Returned tt
      | Raised e => Raised e
      end, w).
Proof.
  intros Hc.
  assert (Hs : has_column df "Season" = true)
    by (unfold has_column; rewrite Hc; reflexivity).
  assert (Hn : has_net_rating_columns df = true)
    by (unfold has_net_rating_columns, has_column; rewrite Hc; reflexivity).
  split; [exact Hn|].
  unfold visualize_net_rating_comparison, melt. rewrite Hs.
  unfold bind, call, ret, raise.
  destruct (show _) as [[]|e]; [|reflexivity]. now rewrite Hn.
Qed.

(** The visualisation of a frame without columns raises before anything
    is shown. *)
Lemma visualize_without_columns (df : DataFrame) (name : string)
    (w : world vars) :
  columns df = [] ->
  visualize_net_rating_comparison show df name w
  = (Raised (KeyError ["Season"]), w).
Proof.
  intros Hc. unfold visualize_net_rating_comparison, melt, has_column.
  rewrite Hc. reflexivity.
Qed.

Lemma frame_of_the_seasons (ss : list string) :
  pd_DataFrame (flat_map (season_rows E player_name) ss) =
  {| columns := if empty ss then [] else columns4;
     records := flat_map (season_rows E player_name) ss |}.
Proof.
  rewrite pd_DataFrame_rows by apply season_rows_keys.
  destruct ss as [|s ss]; [reflexivity|].
  cbn [flat_map]. destruct (season_rows_shape E player_name s)
    as (v1 & v2 & v3 & -> & _). reflexivity.
Qed.

(** What a call amounts to once the name is resolved.  With no season the
    frame has no column and melting it raises; otherwise the frame of the
    seasons' rows is returned unless the display raises. *)
Lemma run_net_resolved (seasons : option (list string)) (pid : Z)
    (w1 : world vars) :
  let ss := requested seasons in
  let df := pd_DataFrame (flat_map (season_rows E player_name) ss) in
  resolve_player E player_name
    {| stdout := ["Comparing " ++ player_name
                  ++ "'s NET_RATING for seasons: " ++ join ", " ss];
       heap := initial_vars |} = (Returned (Some pid), w1) ->
  exists d,
    run E show player_name seasons =
    ((if empty ss then Raised (KeyError ["Season"])
      else match show (net_rating_figure (melted df) df) with
           | Returned _ => Returned (Some df)
           | Raised e => Raised e
           end),
     {| stdout := stdout w1 ++ flat_map (season_lines E player_name) ss;
        heap :=
          {| results := flat_map (season_rows E player_name) ss;
             season_data := d |} |}).
Proof.
  intros ss df Hres. unfold run, compare_net_rating. fold ss.
  rewrite bind_print. cbn [stdout heap app].
  rewrite (bind_returned _ _ _ _ _ Hres), bind_update.
  match goal with
  | |- context [bind (for_each ss _) _ ?w] =>
      destruct (net_rating_loop ss w) as (d & Hloop);
      rewrite (bind_returned _ _ _ _ _ Hloop)
  end.
  exists d. rewrite bind_read. cbn [stdout heap results app]. fold df.
  assert (Hcols : columns df = if empty ss then [] else columns4)
    by (unfold df; now rewrite frame_of_the_seasons).
  destruct (empty ss).
  - now rewrite (bind_raised _ _ _ _ _
                   (visualize_without_columns df player_name _ Hcols)).
  - destruct (visualize_with_columns df player_name
                {| stdout := stdout w1
                             ++ flat_map (season_lines E player_name) ss;
                   heap := {| results := flat_map (season_rows E player_name)
                                           ss;
                              season_data := d |} |} Hcols) as (_ & Hv).
    unfold bind. rewrite Hv. unfold ret.
    destruct (show _) as [[]|e]; reflexivity.
Qed.

Lemma run_net_unresolved (seasons : option (list string)) (w1 : world vars) :
  resolve_player E player_name
    {| stdout := ["Comparing " ++ player_name
                  ++ "'s NET_RATING for seasons: "
                  ++ join ", " (requested seasons)];
       heap := initial_vars |} = (Returned None, w1) ->
  run E show player_name seasons = (Returned None, w1).
Proof.
  intros Hres. unfold run, compare_net_rating.
  rewrite bind_print. cbn [stdout heap app].
  now rewrite (bind_returned _ _ _ _ _ Hres).
Qed.

End WholeComparison.

(* ================================================================= *)
(** * The claims *)

Section PureClaims.
Import ShotDistance.

(** C8.  A shot recorded at exactly 0 ft, or at more than 40 ft, gets no
    distance bin: it is in none of the five groups, so leaving it out
    changes no bin's attempts or makes, nor the total of attempts that the
    frequencies are divided by. *)
Theorem C8_shots_outside_the_bins_are_dropped
    (s : shot) (before after : list shot) :
  SHOT_DISTANCE s = 0 \/ 40 < SHOT_DISTANCE s ->
  DISTANCE_BIN s = None
  /\ (forall l, In l labels -> in_bin l s = false)
  /\ (forall l, FGA (before ++ s :: after) l = FGA (before ++ after) l)
  /\ (forall l, FGM (before ++ s :: after) l = FGM (before ++ after) l)
  /\ FGA_total (before ++ s :: after) = FGA_total (before ++ after)
  /\ shot_distance (before ++ s :: after) = shot_distance (before ++ after).
Proof.
  intros Hs.
  assert (Hnone : DISTANCE_BIN s = None) by (apply DISTANCE_BIN_None; lia).
  assert (Hg : forall l, group (before ++ s :: after) l
                         = group (before ++ after) l)
    by (intros l; now apply group_skip).
  assert (Ha : forall l, FGA (before ++ s :: after) l
                         = FGA (before ++ after) l)
    by (intros l; unfold FGA; now rewrite Hg).
  assert (Hm : forall l, FGM (before ++ s :: after) l
                         = FGM (before ++ after) l)
    by (intros l; unfold FGM; now rewrite Hg).
  assert (Ht : FGA_total (before ++ s :: after) = FGA_total (before ++ after)).
  { unfold FGA_total. f_equal. apply map_ext. exact Ha. }
  repeat split; auto.
  - intros l _. now apply in_bin_outside.
  - rewrite !shot_distance_unfold. unfold row_stats.
    now rewrite !Ha, !Hm, Ht.
Qed.

Lemma C8_witness :
  (SHOT_DISTANCE (mkShot 0 1) = 0 \/ 40 < SHOT_DISTANCE (mkShot 0 1))
  /\ FGA_total ([mkShot 2 1] ++ mkShot 0 1 :: [mkShot 45 0]) = 1.
Proof.
  split; [left; reflexivity|].
  rewrite (proj1 (proj2 (proj2 (proj2 (proj2
             (C8_shots_outside_the_bins_are_dropped
                (mkShot 0 1) [mkShot 2 1] [mkShot 45 0]
                (or_introl eq_refl))))))).
  reflexivity.
Defined.

(** C1 (the code departs from it).  A season whose only fetched shot is
    recorded at 0 ft has a non-empty shot frame, yet all five stored
    frequencies are [nan]: the attempts of the bins add up to 0 and each
    frequency is 0/0.  Their sum is [nan], not 1.  A run of
    [analyze_clutch_player] on such a season stores exactly these. *)
Theorem C1_frequencies_of_a_shot_at_the_rim :
  let shot_df := [mkShot 0 1] in
  Api.empty shot_df = false
  /\ FGA_total shot_df = 0
  /\ map pct_fga (Py.values (shot_distance shot_df))
     = [NaN; NaN; NaN; NaN; NaN]
  /\ fsum (map pct_fga (Py.values (shot_distance shot_df))) = NaN
  /\ ~ feq (fsum (map pct_fga (Py.values (shot_distance shot_df)))) (Fin 1)
  /\ exists r w d,
       ClutchPlayerAnalysis.run Examples.nominal Examples.show_ok
         "Chris Paul" (Some ["2022-23"]) = (Returned (Some r), w)
       /\ ShotChartDetail Examples.nominal 101108 "2022-23"
          = Returned shot_df
       /\ In d (clutch_stats r)
       /\ Analysis.shot_distance d = Some (shot_distance shot_df).
Proof.
  cbv zeta. repeat split; try reflexivity.
  - intros [].
  - do 3 eexists. split; [vm_compute; reflexivity|].
    split; [reflexivity|]. split; [left; reflexivity|reflexivity].
Qed.

(** C6 (on the statistics).  Whatever the shots, the dictionary stored has
    exactly the five keys of the bins, in order, and under each key the
    makes, attempts, percentage and frequency of that bin. *)
Lemma five_bins (shot_df : list shot) :
  Py.keys (shot_distance shot_df)
  = ["0-3_ft"; "3-10_ft"; "10-16_ft"; "16-23_ft"; "23+_ft"]
  /\ Py.keys (shot_distance shot_df) = map group_name labels
  /\ Py.values (shot_distance shot_df) = map (row_stats shot_df) labels.
Proof. repeat split; reflexivity. Qed.

End PureClaims.

Section Ratios.

(** C3.  With no turnover, the ratio stored is the assists themselves, in
    the clutch record (for the non-negative assists a count is) and in the
    regular-season side of the comparison. *)
Theorem C3_no_turnover_gives_the_assists
    (player_clutch player_regular : base_row) (b : clutch_basic_t) :
  (0 <= AST player_clutch)%Q ->
  (TOV player_clutch == 0)%Q ->
  (TOV player_regular == 0)%Q ->
  (ast_to_tov (make_clutch_basic player_clutch) == AST player_clutch)%Q
  /\ (regular (make_comparison player_regular player_clutch b) Ast_to_tov
      == AST player_regular)%Q
  /\ (clutch (make_comparison player_regular player_clutch
                (make_clutch_basic player_clutch)) Ast_to_tov
      == AST player_clutch)%Q.
Proof.
  intros Hast Hc Hr.
  assert (Hclutch : (clutch_ast_to_tov (AST player_clutch) (TOV player_clutch)
                     == AST player_clutch)%Q).
  { unfold clutch_ast_to_tov.
    replace (Qpos_b (TOV player_clutch)) with false
      by (symmetry; apply Qpos_b_false; rewrite Hc; apply Qle_refl).
    destruct (Qpos_b (AST player_clutch)) eqn:Hp; [reflexivity|].
    apply Qpos_b_false in Hp. symmetry. now apply Qle_antisym. }
  repeat split; cbn [ast_to_tov make_clutch_basic regular clutch
                     make_comparison]; try exact Hclutch.
  unfold regular_ast_to_tov.
  replace (Qpos_b (TOV player_regular)) with false
    by (symmetry; apply Qpos_b_false; rewrite Hr; apply Qle_refl).
  reflexivity.
Qed.

Lemma C3_witness :
  (ast_to_tov (make_clutch_basic (Examples.paul_base 7 0)) == 7)%Q.
Proof.
  apply (C3_no_turnover_gives_the_assists
           (Examples.paul_base 7 0) (Examples.paul_base 10 0)
           (make_clutch_basic (Examples.paul_base 7 0)));
    [discriminate | reflexivity | reflexivity].
Defined.

(** C9.  For non-negative assists and turnovers the two formulas of
    [analyze_clutch_player] give the same number. *)
Theorem C9_the_two_ratio_formulas_agree (ast tov : Q) :
  (0 <= ast)%Q -> (0 <= tov)%Q ->
  (clutch_ast_to_tov ast tov == regular_ast_to_tov ast tov)%Q.
Proof.
  intros Hast _. unfold clutch_ast_to_tov, regular_ast_to_tov.
  destruct (Qpos_b tov); [reflexivity|].
  destruct (Qpos_b ast) eqn:Hp; [reflexivity|].
  apply Qpos_b_false in Hp. now apply Qle_antisym.
Qed.

Lemma C9_witness :
  (clutch_ast_to_tov 0 0 == regular_ast_to_tov 0 0)%Q
  /\ (clutch_ast_to_tov 9 2 == regular_ast_to_tov 9 2)%Q.
Proof.
  split; apply C9_the_two_ratio_formulas_agree; discriminate.
Defined.

End Ratios.

(** ** Reading a returned result *)

Section Returned.
Import ClutchPlayerAnalysis.
Variable E : Env.
Variable show : Visualize.figure -> outcome unit.
Variables (player_name : string) (seasons : option (list string)).

(** A returned [results] holds the records of the seasons, in order, and
    the output ends with their lines. *)
Lemma run_returned (r : results_t) (w : world vars) :
  run E show player_name seasons = (Returned (Some r), w) ->
  exists info,
    player_info r = Some info
    /\ Analysis.seasons r = requested seasons
    /\ clutch_stats r =
       flat_map (season_records E player_name (player_id info))
                (requested seasons)
    /\ exists header : list string,
         stdout w =
         (header ++ flat_map (season_lines E player_name (player_id info))
                             (requested seasons))%list.
Proof.
  intros Hrun.
  destruct (run_cases E show player_name seasons)
    as [(w0 & H0)|(info & header & d & H)].
  - rewrite H0 in Hrun. discriminate.
  - cbv zeta in H. rewrite H in Hrun. exists info.
    destruct (empty _); [|destruct (show _)];
      inversion Hrun; subst; cbn; eauto.
Qed.


End Returned.

Section ShotChartAnswered.
Import ClutchPlayerAnalysis.
Variable E : Env.
Variables (player_name : string) (player_id : Z).

(** An answered, non-empty shot chart is stored, whatever happens to the
    request that follows it. *)
Lemma shot_chart_answered (season : string) (r : base_row)
    (shot_df : list ShotDistance.shot) :
  clutch_answered E player_name season r ->
  ShotChartDetail E player_id season = Returned shot_df ->
  empty shot_df = false ->
  exists d,
    season_records E player_name player_id season = [d]
    /\ Analysis.season d = season
    /\ shot_distance d = Some (ShotDistance.shot_distance shot_df).
Proof.
  intros (df & rest & dfa & Hb & Hs & Ha) Hshot Hne.
  cbv [season_records season_lines season_alone
       process_season fetch_clutch fetch_shots_and_regular
       bind ret raise try_except print call read update sleep
       on_results on_season_data initial_vars].
  cbn [stdout heap results season_data fst snd].
  rewrite Hb, Hs. cbn [stdout heap results season_data fst snd].
  rewrite Ha.
  destruct (select_player dfa player_name);
    cbn [stdout heap results season_data fst snd]; rewrite Hshot, Hne;
    cbn [stdout heap results season_data fst snd];
    repeat (split_match; cbn [stdout heap results season_data fst snd
                              clutch_basic set_clutch_basic
                              set_clutch_advanced set_shot_distance
                              new_season_data]);
    try discriminate;
    eexists; repeat split; reflexivity.
Qed.

End ShotChartAnswered.

(** A non-null cell comes from an answered request with a row. *)
Lemma stored_number (name : string) (req : outcome (list adv_row)) (q : Q) :
  CompareNetRating.stored name req (CompareNetRating.VNum q) ->
  exists df r rest,
    req = Returned df
    /\ select_player (m := Advanced) df name = r :: rest
    /\ q = NET_RATING r.
Proof.
  unfold CompareNetRating.stored.
  destruct req as [df|e]; [|discriminate].
  destruct (select_player (m := Advanced) df name) as [|r rest] eqn:Hs;
    [discriminate|].
  intros [= ->]. exists df, r, rest. auto.
Qed.

Section ReturnedFrame.
Import CompareNetRating.
Variable E : Env.
Variable show : figure -> outcome unit.
Variables (player_name : string) (seasons : option (list string)).

(** A returned frame holds the rows of the seasons, in order, and the
    output ends with their lines. *)
Lemma run_net_returned (df : DataFrame) (w : world vars) :
  run E show player_name seasons = (Returned (Some df), w) ->
  records df = flat_map (season_rows E player_name) (requested seasons)
  /\ exists header : list string,
       stdout w =
       (header ++ flat_map (season_lines E player_name)
                           (requested seasons))%list.
Proof.
  intros Hrun.
  destruct (resolve_player E player_name
              {| stdout := ["Comparing " ++ player_name
                            ++ "'s NET_RATING for seasons: "
                            ++ join ", " (requested seasons)];
                 heap := initial_vars |}) as [[[pid|]|e] w1] eqn:Hres.
  - destruct (run_net_resolved E show player_name seasons pid w1 Hres)
      as (d & Hr).
    rewrite Hr in Hrun.
    destruct (empty (requested seasons)); [discriminate|].
    destruct (show _); [|discriminate].
    injection Hrun as <- <-. split; [|cbn [stdout]; eauto].
    rewrite pd_DataFrame_rows by apply season_rows_keys. reflexivity.
  - rewrite (run_net_unresolved E show player_name seasons w1 Hres) in Hrun.
    discriminate.
  - unfold run, compare_net_rating in Hrun.
    rewrite bind_print in Hrun. cbn [stdout heap app] in Hrun.
    rewrite (bind_raised _ _ _ _ _ Hres) in Hrun. discriminate.
Qed.



End ReturnedFrame.

Section AnalysisClaims.
Import ClutchPlayerAnalysis.

(** C6.  When the clutch requests of a requested season were answered
    and its shot chart came back non-empty, the record returned for the
    season holds exactly the five distance bins, in order, each with its
    makes, attempts, shooting percentage and attempt frequency. *)
Theorem C6_five_bins_are_stored
    (E : Env) (show : Visualize.figure -> outcome unit)
    (name : string) (seasons : option (list string))
    (r : results_t) (w : world vars) (info : player_info_t)
    (season : string) (b : base_row) (shot_df : list ShotDistance.shot) :
  run E show name seasons = (Returned (Some r), w) ->
  player_info r = Some info ->
  In season (requested seasons) ->
  clutch_answered E name season b ->
  ShotChartDetail E (player_id info) season = Returned shot_df ->
  empty shot_df = false ->
  exists d,
    In d (clutch_stats r)
    /\ Analysis.season d = season
    /\ shot_distance d =
       Some [("0-3_ft", ShotDistance.row_stats shot_df "0-3 ft");
             ("3-10_ft", ShotDistance.row_stats shot_df "3-10 ft");
             ("10-16_ft", ShotDistance.row_stats shot_df "10-16 ft");
             ("16-23_ft", ShotDistance.row_stats shot_df "16-23 ft");
             ("23+_ft", ShotDistance.row_stats shot_df "23+ ft")].
Proof.
  intros Hrun Hinfo Hin Hclutch Hshot Hne.
  destruct (run_returned E show name seasons r w Hrun)
    as (info' & Hinfo' & _ & Hstats & _).
  rewrite Hinfo in Hinfo'. injection Hinfo' as <-.
  destruct (shot_chart_answered E name (player_id info) season b shot_df
              Hclutch Hshot Hne) as (d & Hrec & Hseason & Hsd).
  exists d. split; [|split; [exact Hseason|]].
  - rewrite Hstats. apply in_flat_map. exists season.
    split; [exact Hin|]. rewrite Hrec. now left.
  - rewrite Hsd. now rewrite shot_distance_unfold.
Qed.

Lemma C6_witness :
  exists r w d,
    run Examples.nominal Examples.show_ok "Chris Paul" (Some ["2020-21"])
    = (Returned (Some r), w)
    /\ In d (clutch_stats r)
    /\ option_map (@Py.keys ShotDistance.bin_stats) (shot_distance d)
       = Some Visualize.distance_order.
Proof.
  destruct (C6_five_bins_are_stored
              Examples.nominal Examples.show_ok "Chris Paul"
              (Some ["2020-21"])
              (match fst (run Examples.nominal Examples.show_ok "Chris Paul"
                            (Some ["2020-21"])) with
               | Returned (Some r) => r
               | _ => new_results "" []
               end)
              (snd (run Examples.nominal Examples.show_ok "Chris Paul"
                      (Some ["2020-21"])))
              {| height := "6-0"; weight := "175"; player_id := 101108 |}
              "2020-21" (Examples.paul_base 9 2)
              (Examples.shots_of "2020-21"))
    as (d & Hin & _ & Hsd).
  - vm_compute. reflexivity.
  - reflexivity.
  - left. reflexivity.
  - exists [Examples.paul_base 9 2], [], [Examples.paul_adv].
    repeat split; reflexivity.
  - reflexivity.
  - reflexivity.
  - do 2 eexists. exists d. split; [vm_compute; reflexivity|].
    split; [exact Hin|]. now rewrite Hsd.
Defined.


Lemma records_in_season (E : Env) (name : string) (pid : Z)
    (ss : list string) (d : season_data_t) :
  In d (flat_map (season_records E name pid) ss) ->
  exists s, In s ss /\ Analysis.season d = s /\ fetched E name pid d.
Proof.
  intros Hin. apply in_flat_map in Hin. destruct Hin as (s & Hs & Hd).
  exists s. split; [exact Hs|].
  now apply (season_records_fetched E name pid s d).
Qed.


End AnalysisClaims.

Lemma Forall2_in_right {A B : Type} (R : A -> B -> Prop)
    (l : list A) (l' : list B) (y : B) :
  Forall2 R l l' -> In y l' -> exists x, In x l /\ R x y.
Proof.
  induction 1 as [|x y' l l' Hxy _ IH]; intros Hin; [contradiction|].
  destruct Hin as [<-|Hin].
  - exists x. split; [now left|exact Hxy].
  - destruct (IH Hin) as (x' & Hx' & HR). exists x'. split; [now right|exact HR].
Qed.

Section PresenceClaims.

(** C4 as stated fails for the rows of [compare_net_rating].  A player
    whose team missed the playoffs has no row in the playoff frame, and
    the row of the season still has its 'Playoffs' key (holding a null). *)
Lemma C4_counterexample :
  ~ (forall (E : Env) (show : CompareNetRating.figure -> outcome unit)
            (name : string) (seasons : option (list string))
            (df : CompareNetRating.DataFrame)
            (w : world CompareNetRating.vars)
            (row : Py.dict CompareNetRating.value) (s c : string),
        CompareNetRating.run E show name seasons = (Returned (Some df), w) ->
        In row (CompareNetRating.records df) ->
        CompareNetRating.cell row "Season" = CompareNetRating.VStr s ->
        In c CompareNetRating.net_rating_columns ->
        Py.mem row c = true ->
        exists adf r rest,
          CompareNetRating.request E s c = Returned adf
          /\ select_player (m := Advanced) adf name = r :: rest).
Proof.
  intros Hclaim.
  edestruct Hclaim
    with (E := Examples.missed_playoffs)
         (show := @Examples.show_ok CompareNetRating.figure)
         (name := "Chris Paul") (seasons := Some ["2020-21"])
         (s := "2020-21") (c := "Playoffs")
    as (adf & r & rest & Hreq & Hsel).
  - vm_compute. reflexivity.
  - left. reflexivity.
  - reflexivity.
  - cbn. auto.
  - reflexivity.
  - vm_compute in Hreq. injection Hreq as <-. discriminate.
Qed.

(** C4, amended.  In the records of [analyze_clutch_player] a field is
    present only if its request was answered with a non-empty result for
    the player.  The rows of [compare_net_rating] always have their four
    keys; there, a NET_RATING value is non-null only if its request was
    answered with a row for the player, whose NET_RATING it is, and null
    otherwise. *)
Theorem C4_fields_come_from_answers
    (E : Env) (show_a : Visualize.figure -> outcome unit)
    (show_c : CompareNetRating.figure -> outcome unit)
    (name : string) (seasons : option (list string)) :
  (forall r w,
      ClutchPlayerAnalysis.run E show_a name seasons
      = (Returned (Some r), w) ->
      exists info,
        player_info r = Some info
        /\ forall d, In d (clutch_stats r) ->
                     In (season d) (requested seasons)
                     /\ ClutchPlayerAnalysis.fetched E name (player_id info) d)
  /\ (forall df w,
         CompareNetRating.run E show_c name seasons
         = (Returned (Some df), w) ->
         forall row, In row (CompareNetRating.records df) ->
           Py.keys row = CompareNetRating.columns4
           /\ exists s,
                In s (requested seasons)
                /\ CompareNetRating.cell row "Season"
                   = CompareNetRating.VStr s
                /\ CompareNetRating.fetched_row E name s row
                /\ forall c q,
                     In c CompareNetRating.net_rating_columns ->
                     CompareNetRating.cell row c = CompareNetRating.VNum q ->
                     exists adf r rest,
                       CompareNetRating.request E s c = Returned adf
                       /\ select_player (m := Advanced) adf name = r :: rest
                       /\ q = NET_RATING r).
Proof.
  split.
  - intros r w Hrun.
    destruct (run_returned E show_a name seasons r w Hrun)
      as (info & Hinfo & _ & Hstats & _).
    exists info. split; [exact Hinfo|]. intros d Hd. rewrite Hstats in Hd.
    destruct (records_in_season E name (player_id info) _ d Hd)
      as (s & Hs & <- & Hf).
    now split.
  - intros df w Hrun row Hrow.
    destruct (run_net_returned E show_c name seasons df w Hrun)
      as (Hrec & _).
    rewrite Hrec in Hrow.
    pose proof (season_rows_all E name (requested seasons)) as Hall.
    destruct (Forall2_in_right _ _ _ row Hall Hrow) as (s & Hs & Hfetched).
    destruct (fetched_row_keys E name s row Hfetched) as (Hkeys & Hseason).
    split; [exact Hkeys|]. exists s.
    split; [exact Hs|]. split; [exact Hseason|]. split; [exact Hfetched|].
    destruct Hfetched as (v1 & v2 & v3 & -> & H1 & H2 & H3).
    intros c q [<-|[<-|[<-|[]]]] Hq; cbn in Hq; subst;
      now apply stored_number.
Qed.

Lemma C4_witness :
  exists r w d df w' row,
    ClutchPlayerAnalysis.run Examples.nominal Examples.show_ok "Chris Paul"
      (Some ["2020-21"]) = (Returned (Some r), w)
    /\ In d (clutch_stats r)
    /\ ClutchPlayerAnalysis.fetched Examples.nominal "Chris Paul" 101108 d
    /\ CompareNetRating.run Examples.nominal Examples.show_ok "Chris Paul"
         (Some ["2020-21"]) = (Returned (Some df), w')
    /\ In row (CompareNetRating.records df)
    /\ Py.keys row = CompareNetRating.columns4.
Proof.
  destruct (C4_fields_come_from_answers
              Examples.nominal Examples.show_ok Examples.show_ok
              "Chris Paul" (Some ["2020-21"])) as [Ha Hc].
  do 6 eexists.
  split; [vm_compute; reflexivity|].
  split; [left; reflexivity|].
  split.
  - edestruct Ha as (info & Hinfo & Hd); [vm_compute; reflexivity|].
    injection Hinfo as <-.
    apply (Hd _ (or_introl eq_refl)).
  - split; [vm_compute; reflexivity|].
    split; [left; reflexivity|].
    eapply Hc; [vm_compute; reflexivity|left; reflexivity].
Defined.

End PresenceClaims.

Section ErrorClaims.



End ErrorClaims.


Section LookupClaims.

(** C7.  When the lookup answers and leaves no player (no match, or
    several matches and an invalid selection), both functions print one of
    the three refusal messages and return [None]; nothing is raised. *)
Theorem C7_unresolved_names_return_None
    (E : Env) (show_a : Visualize.figure -> outcome unit)
    (show_c : CompareNetRating.figure -> outcome unit)
    (name : string) (seasons : option (list string)) :
  unresolvable E name ->
  (exists w line,
      ClutchPlayerAnalysis.run E show_a name seasons = (Returned None, w)
      /\ In line (stdout w) /\ refusal name line)
  /\ (exists w line,
         CompareNetRating.run E show_c name seasons = (Returned None, w)
         /\ In line (stdout w) /\ refusal name line).
Proof.
  intros Hun. split.
  - unfold ClutchPlayerAnalysis.run,
      ClutchPlayerAnalysis.analyze_clutch_player.
    rewrite bind_print, bind_update.
    match goal with
    | |- context [bind (ClutchPlayerAnalysis.get_player_info E name) _ ?w0] =>
        destruct (resolve_player_unresolvable E name w0 Hun)
          as (out & line & Hres & Href);
        assert (Hg : ClutchPlayerAnalysis.get_player_info E name w0 =
                     (Returned None,
                      {| stdout := stdout w0 ++ out ++ [line];
                         heap := heap w0 |}))
    end.
    { unfold ClutchPlayerAnalysis.get_player_info, try_except.
      now rewrite (bind_returned _ _ _ _ _ Hres). }
    rewrite (bind_returned _ _ _ _ _ Hg).
    do 2 eexists. split; [reflexivity|]. split; [|exact Href].
    cbn [stdout]. rewrite !in_app_iff. right. right. now left.
  - match goal with
    | |- context [CompareNetRating.run E show_c name seasons] =>
        destruct (resolve_player_unresolvable E name
                    {| stdout := ["Comparing " ++ name
                                  ++ "'s NET_RATING for seasons: "
                                  ++ join ", " (requested seasons)];
                       heap := CompareNetRating.initial_vars |} Hun)
          as (out & line & Hres & Href)
    end.
    rewrite (run_net_unresolved E show_c name seasons _ Hres).
    do 2 eexists. split; [reflexivity|]. split; [|exact Href].
    cbn [stdout]. rewrite !in_app_iff. right. right. now left.
Qed.

Lemma C7_witness :
  unresolvable Examples.nobody "Chris Paul"
  /\ unresolvable Examples.namesakes "Chris Paul"
  /\ (exists w,
         ClutchPlayerAnalysis.run Examples.nobody Examples.show_ok
           "Chris Paul" None = (Returned None, w))
  /\ (exists w,
         CompareNetRating.run Examples.namesakes Examples.show_ok
           "Chris Paul" None = (Returned None, w)).
Proof.
  assert (H1 : unresolvable Examples.nobody "Chris Paul").
  { exists []. split; [reflexivity|now left]. }
  assert (H2 : unresolvable Examples.namesakes "Chris Paul").
  { eexists. split; [reflexivity|]. right. split; [cbn; lia|].
    intros (n & Hn & _). discriminate. }
  repeat split; [exact H1|exact H2| |].
  - destruct (C7_unresolved_names_return_None
                Examples.nobody Examples.show_ok Examples.show_ok
                "Chris Paul" None H1) as [(w & _ & Hrun & _) _].
    now exists w.
  - destruct (C7_unresolved_names_return_None
                Examples.namesakes Examples.show_ok Examples.show_ok
                "Chris Paul" None H2) as [_ (w & _ & Hrun & _)].
    now exists w.
Defined.




End LookupClaims.

Section AverageClaims.
Import Visualize.

Lemma add_comparison_count (t : totals) (c : comparison) :
  count (add_comparison t c) = count t + 1.
Proof. reflexivity. Qed.

Lemma add_comparison_sums (t : totals) (c : comparison) (m : metric) :
  regular_avgs (add_comparison t c) m = (regular_avgs t m + regular c m)%Q
  /\ clutch_avgs (add_comparison t c) m = (clutch_avgs t m + clutch c m)%Q.
Proof. destruct m; split; reflexivity. Qed.

Lemma Qsum_from (l : list Q) (a : Q) :
  (fold_left Qplus l a == a + CompareNetRating.Qsum l)%Q.
Proof.
  unfold CompareNetRating.Qsum. revert a.
  induction l as [|x l IH]; intros a; cbn [fold_left].
  - ring.
  - rewrite (IH (a + x)%Q), (IH (0 + x)%Q). ring.
Qed.

Lemma season_totals_from (stats : list season_data_t) (t : totals) :
  count (fold_left add_season stats t)
  = count t + Z.of_nat (List.length (comparisons stats))
  /\ forall m,
       (regular_avgs (fold_left add_season stats t) m
        == regular_avgs t m
           + CompareNetRating.Qsum
               (map (fun c => regular c m) (comparisons stats)))%Q
       /\ (clutch_avgs (fold_left add_season stats t) m
           == clutch_avgs t m
              + CompareNetRating.Qsum
                  (map (fun c => clutch c m) (comparisons stats)))%Q.
Proof.
  revert t. induction stats as [|d stats IH]; intros t.
  - cbn. split; [lia|]. intros m. unfold CompareNetRating.Qsum. cbn.
    split; ring.
  - cbn [fold_left]. unfold comparisons. cbn [flat_map].
    fold (comparisons stats).
    destruct (IH (add_season t d)) as (Hc & Hs).
    unfold add_season in *. destruct (regular_vs_clutch d) as [c|].
    + split.
      * rewrite Hc, add_comparison_count. cbn [app List.length]. lia.
      * intros m. destruct (Hs m) as (Hr & Hcl).
        destruct (add_comparison_sums t c m) as (Er & Ec).
        rewrite Er in Hr. rewrite Ec in Hcl.
        cbn [app map]. unfold CompareNetRating.Qsum in *. cbn [fold_left].
        rewrite (Qsum_from _ (0 + regular c m)%Q),
                (Qsum_from _ (0 + clutch c m)%Q).
        unfold CompareNetRating.Qsum. rewrite Hr, Hcl.
        split; ring.
    + cbn [app]. split; [exact Hc|exact Hs].
Qed.

(** The part of C2 that holds: the bars of the regular-vs-clutch panel are
    the sums over the seasons that have a comparison, divided by the
    number of those seasons. *)
Lemma comparison_average (stats : list season_data_t) (m : metric) :
  let n := Z.of_nat (List.length (comparisons stats)) in
  count (season_totals stats) = n
  /\ (regular_avgs (season_totals stats) m / inject_Z n
      == CompareNetRating.Qsum (map (fun c => regular c m) (comparisons stats))
         / inject_Z n)%Q
  /\ (clutch_avgs (season_totals stats) m / inject_Z n
      == CompareNetRating.Qsum (map (fun c => clutch c m) (comparisons stats))
         / inject_Z n)%Q.
Proof.
  cbv zeta. unfold season_totals.
  destruct (season_totals_from stats zero_totals) as (Hc & Hs).
  destruct (Hs m) as (Hr & Hcl).
  cbn [count regular_avgs clutch_avgs zero_totals] in *.
  split; [lia|]. rewrite Hr, Hcl. split; apply Qdiv_comp;
    try reflexivity; ring.
Qed.

(** C2 (the code departs from it).  Two seasons: in 2020-21 the player
    takes two shots from 2 ft and makes one, in 2021-22 a single shot from
    5 ft.  Only 2020-21 has a shooting percentage for the 0-3 ft bin
    (1/2), and only it is added to the bin's sum; the sum is then divided
    by the 2 seasons that have the bin, and the chart shows 1/4. *)
Theorem C2_bin_percentage_divided_by_all_seasons :
  exists r w,
    ClutchPlayerAnalysis.run Examples.nominal Examples.show_ok "Chris Paul"
      (Some ["2020-21"; "2021-22"]) = (Returned (Some r), w)
    /\ flat_map
         (fun d =>
            match shot_distance d with
            | Some bins =>
                match Py.get bins "0-3_ft" with
                | Some b => [(ShotDistance.fga b, ShotDistance.fg_pct b)]
                | None => []
                end
            | None => []
            end) (clutch_stats r)
       = [(2, Fin (1 # 2)); (0, NaN)]
    /\ Py.get (distance_data (clutch_stats r)) "0-3_ft"
       = Some {| d_pct_fga := Fin (2 # 2); d_fg_pct := Fin (1 # 2);
                 d_count := 2; d_fga := 2 |}
    /\ option_map (fun c => nth 0 (Visualize.fg_pct c) None)
         (panel_distance (player_figure r))
       = Some (Some (Fin (1 # 4))).
Proof.
  do 2 eexists. split; [vm_compute; reflexivity|].
  repeat split; vm_compute; reflexivity.
Qed.

End AverageClaims.

(* ================================================================= *)
(** * Further properties of the scripts *)

(** ** The distance bins and their statistics *)

Section Bins.
Import ShotDistance.

(** X1.  [pd.cut] puts a distance in the bin whose upper edge it does not
    exceed: 1-3 ft, 4-10 ft, 11-16 ft, 17-23 ft, 24-40 ft; an edge belongs
    to the bin below it, and 0 ft, negative distances and anything beyond
    40 ft get no bin. *)
Theorem X1_bin_of_a_distance (s : shot) :
  let d := SHOT_DISTANCE s in
  (DISTANCE_BIN s = Some "0-3 ft" <-> 0 < d <= 3)
  /\ (DISTANCE_BIN s = Some "3-10 ft" <-> 3 < d <= 10)
  /\ (DISTANCE_BIN s = Some "10-16 ft" <-> 10 < d <= 16)
  /\ (DISTANCE_BIN s = Some "16-23 ft" <-> 16 < d <= 23)
  /\ (DISTANCE_BIN s = Some "23+ ft" <-> 23 < d <= 40)
  /\ (DISTANCE_BIN s = None <-> d <= 0 \/ 40 < d).
Proof.
  cbv zeta. unfold DISTANCE_BIN, pd_cut, bins, labels, cut_from.
  repeat match goal with
         | |- context [if ?b then _ else _] => destruct b eqn:?
         end;
    repeat split; intros; try discriminate; try reflexivity; try lia.
Qed.

Lemma in_bin_count (s : shot) :
  (if in_bin "0-3 ft" s then 1 else 0)
  + (if in_bin "3-10 ft" s then 1 else 0)
  + (if in_bin "10-16 ft" s then 1 else 0)
  + (if in_bin "16-23 ft" s then 1 else 0)
  + (if in_bin "23+ ft" s then 1 else 0)
  = if (0 <? SHOT_DISTANCE s) && (SHOT_DISTANCE s <=? 40) then 1 else 0.
Proof.
  unfold in_bin, DISTANCE_BIN, pd_cut, bins, labels, cut_from.
  repeat match goal with
         | |- context [if (?a <? ?b) && ?c then _ else _] =>
             destruct (Z.ltb_spec a b); cbn [andb]
         | |- context [if (?a <=? ?b) then _ else _] =>
             destruct (Z.leb_spec a b)
         end; cbn; lia.
Qed.

Lemma FGA_cons (s : shot) (shot_df : list shot) (l : string) :
  FGA (s :: shot_df) l = (if in_bin l s then 1 else 0) + FGA shot_df l.
Proof.
  unfold FGA, group. cbn [filter]. destruct (in_bin l s);
    cbn [List.length]; lia.
Qed.

Lemma FGA_total_unfold (shot_df : list shot) :
  FGA_total shot_df =
  FGA shot_df "0-3 ft" + FGA shot_df "3-10 ft" + FGA shot_df "10-16 ft"
  + FGA shot_df "16-23 ft" + FGA shot_df "23+ ft".
Proof. unfold FGA_total, labels. cbn [map fold_left]. lia. Qed.

(** X2.  The bins are disjoint and cover 1 to 40 ft: the attempts of the
    five bins add up to the number of shots recorded between 1 and 40 ft,
    whatever else the frame holds. *)
Theorem X2_attempts_add_up_to_the_shots_in_range (shot_df : list shot) :
  FGA_total shot_df =
  Z.of_nat
    (List.length
       (filter (fun s => (0 <? SHOT_DISTANCE s) && (SHOT_DISTANCE s <=? 40))
               shot_df)).
Proof.
  rewrite FGA_total_unfold.
  induction shot_df as [|s shot_df IH]; [reflexivity|].
  rewrite !FGA_cons. cbn [filter].
  pose proof (in_bin_count s) as Hs.
  destruct ((0 <? SHOT_DISTANCE s) && (SHOT_DISTANCE s <=? 40));
    cbn [List.length]; lia.
Qed.

End Bins.

Section BinStatistics.
Import ShotDistance.

Lemma FGA_nonneg (shot_df : list shot) (l : string) : 0 <= FGA shot_df l.
Proof. unfold FGA. lia. Qed.

Lemma FGA_total_pos (shot_df : list shot) (s : shot) :
  In s shot_df -> 0 < SHOT_DISTANCE s <= 40 -> 0 < FGA_total shot_df.
Proof.
  intros Hin Hd. rewrite FGA_total_unfold.
  induction shot_df as [|s' shot_df IH]; [contradiction|].
  rewrite !FGA_cons.
  pose proof (in_bin_count s') as Hs'.
  pose proof (FGA_nonneg shot_df "0-3 ft").
  pose proof (FGA_nonneg shot_df "3-10 ft").
  pose proof (FGA_nonneg shot_df "10-16 ft").
  pose proof (FGA_nonneg shot_df "16-23 ft").
  pose proof (FGA_nonneg shot_df "23+ ft").
  destruct Hin as [->|Hin].
  - replace ((0 <? SHOT_DISTANCE s) && (SHOT_DISTANCE s <=? 40)) with true
      in Hs'
      by (symmetry; apply andb_true_intro; split;
          [apply Z.ltb_lt|apply Z.leb_le]; lia).
    lia.
  - specialize (IH Hin).
    destruct ((0 <? SHOT_DISTANCE s') && (SHOT_DISTANCE s' <=? 40)); lia.
Qed.

Lemma ratio_in_unit_interval (a t : Z) :
  0 <= a <= t -> 0 < t ->
  fdiv (of_Z a) (of_Z t) = Fin (inject_Z a / inject_Z t)
  /\ (0 <= inject_Z a / inject_Z t <= 1)%Q.
Proof.
  intros Ha Ht. unfold fdiv, of_Z. rewrite Qzero_b_inject_Z.
  replace (t =? 0) with false by (symmetry; apply Z.eqb_neq; lia).
  split; [reflexivity|].
  assert (HT : (0 < inject_Z t)%Q)
    by (change 0%Q with (inject_Z 0); rewrite <- Zlt_Qlt; lia).
  split.
  - apply Qle_shift_div_l; [exact HT|]. rewrite Qmult_0_l.
    change 0%Q with (inject_Z 0). rewrite <- Zle_Qle. lia.
  - apply Qle_shift_div_r; [exact HT|]. rewrite Qmult_1_l.
    rewrite <- Zle_Qle. lia.
Qed.

Lemma FGA_le_total (shot_df : list shot) (l : string) :
  In l labels -> FGA shot_df l <= FGA_total shot_df.
Proof.
  intros Hl. rewrite FGA_total_unfold.
  pose proof (FGA_nonneg shot_df "0-3 ft").
  pose proof (FGA_nonneg shot_df "3-10 ft").
  pose proof (FGA_nonneg shot_df "10-16 ft").
  pose proof (FGA_nonneg shot_df "16-23 ft").
  pose proof (FGA_nonneg shot_df "23+ ft").
  destruct Hl as [<-|[<-|[<-|[<-|[<-|[]]]]]]; lia.
Qed.

Lemma ratio_zero (a t : Z) :
  0 < t -> (inject_Z a / inject_Z t == 0)%Q <-> a = 0.
Proof.
  intros Ht.
  assert (HT : ~ (inject_Z t == 0)%Q).
  { change 0%Q with (inject_Z 0). rewrite inject_Z_injective. lia. }
  split.
  - intros Hq.
    assert (Ha : (inject_Z a == inject_Z 0)%Q).
    { setoid_replace (inject_Z a)
        with (inject_Z a / inject_Z t * inject_Z t)%Q by (field; exact HT).
      rewrite Hq. reflexivity. }
    rewrite inject_Z_injective in Ha. exact Ha.
  - intros ->. unfold Qdiv. now rewrite Qmult_0_l.
Qed.

Lemma ratio_monotone (a a' t : Z) :
  0 < t -> a <= a' -> (inject_Z a / inject_Z t <= inject_Z a' / inject_Z t)%Q.
Proof.
  intros Ht Ha. unfold Qdiv. apply Qmult_le_compat_r.
  - now rewrite <- Zle_Qle.
  - apply Qinv_le_0_compat. change 0%Q with (inject_Z 0).
    rewrite <- Zle_Qle. lia.
Qed.

Lemma stored_bin (shot_df : list shot) (name : string) (b : bin_stats) :
  In (name, b) (shot_distance shot_df) ->
  exists l, In l labels /\ b = row_stats shot_df l.
Proof.
  intros Hb. rewrite shot_distance_unfold in Hb.
  destruct Hb as [Hb|[Hb|[Hb|[Hb|[Hb|[]]]]]]; injection Hb as _ <-;
    eexists; (split; [|reflexivity]); cbn; auto 10.
Qed.

(** X3.  As soon as one fetched shot lies between 1 and 40 ft, the
    attempts the frequencies are divided by are positive, and every stored
    attempt frequency is a number, never [nan], between 0 and 1; it is 0
    exactly for a bin without attempts, and of two bins the one with no
    fewer attempts has no smaller frequency.  (Sign, bounds and order are
    what the rounding of a double quotient keeps; nothing is said of the
    sum of the five, which rounding moves off 1.) *)
Theorem X3_frequencies_of_a_season_with_a_shot_in_range
    (shot_df : list shot) (s : shot) :
  In s shot_df -> 0 < SHOT_DISTANCE s <= 40 ->
  0 < FGA_total shot_df
  /\ (forall name b,
         In (name, b) (shot_distance shot_df) ->
         0 <= fga b <= FGA_total shot_df
         /\ exists q,
              pct_fga b = Fin q /\ (0 <= q <= 1)%Q
              /\ ((q == 0)%Q <-> fga b = 0))
  /\ (forall name b name' b' q q',
         In (name, b) (shot_distance shot_df) ->
         In (name', b') (shot_distance shot_df) ->
         pct_fga b = Fin q -> pct_fga b' = Fin q' ->
         fga b <= fga b' -> (q <= q')%Q).
Proof.
  intros Hin Hd.
  pose proof (FGA_total_pos shot_df s Hin Hd) as Hpos.
  assert (Hbin : forall l, In l labels ->
                   0 <= FGA shot_df l <= FGA_total shot_df)
    by (intros l Hl; split; [apply FGA_nonneg|now apply FGA_le_total]).
  split; [exact Hpos|]. split.
  - intros name b Hb.
    destruct (stored_bin shot_df name b Hb) as (l & Hl & ->).
    cbn [fga pct_fga row_stats]. split; [now apply Hbin|].
    destruct (ratio_in_unit_interval (FGA shot_df l) (FGA_total shot_df)
                (Hbin l Hl) Hpos) as (Hq & Hr).
    eexists. split; [exact Hq|]. split; [exact Hr|].
    now apply ratio_zero.
  - intros name b name' b' q q' Hb Hb'.
    destruct (stored_bin shot_df name b Hb) as (l & Hl & ->).
    destruct (stored_bin shot_df name' b' Hb') as (l' & Hl' & ->).
    cbn [fga pct_fga row_stats].
    rewrite (proj1 (ratio_in_unit_interval _ _ (Hbin l Hl) Hpos)),
            (proj1 (ratio_in_unit_interval _ _ (Hbin l' Hl') Hpos)).
    intros [= <-] [= <-] Hle. now apply ratio_monotone.
Qed.

Lemma X3_witness :
  let shot_df := [mkShot 11 1; mkShot 17 0; mkShot 17 1; mkShot 17 0;
                  mkShot 17 1; mkShot 24 0] in
  0 < FGA_total shot_df
  /\ exists q,
       pct_fga (row_stats shot_df "16-23 ft") = Fin q /\ (0 <= q <= 1)%Q.
Proof.
  cbv zeta.
  destruct (X3_frequencies_of_a_season_with_a_shot_in_range
              [mkShot 11 1; mkShot 17 0; mkShot 17 1; mkShot 17 0;
               mkShot 17 1; mkShot 24 0] (mkShot 11 1))
    as (Hpos & Hbins & _).
  - left. reflexivity.
  - cbn. lia.
  - split; [exact Hpos|].
    destruct (Hbins "16-23_ft"
                (row_stats [mkShot 11 1; mkShot 17 0; mkShot 17 1;
                            mkShot 17 0; mkShot 17 1; mkShot 24 0]
                           "16-23 ft"))
      as (_ & q & Hq & Hr & _).
    + do 3 right. left. reflexivity.
    + exists q. split; [exact Hq|exact Hr].
Defined.

Lemma sum_from (l : list Z) (a : Z) :
  fold_left Z.add l a = a + fold_left Z.add l 0.
Proof.
  revert a. induction l as [|x l IH]; intros a; cbn [fold_left]; [lia|].
  rewrite (IH (a + x)), (IH (0 + x)). lia.
Qed.

Lemma FGM_bounds (shot_df : list shot) (l : string) :
  Forall (fun s => SHOT_MADE_FLAG s = 0 \/ SHOT_MADE_FLAG s = 1) shot_df ->
  0 <= FGM shot_df l <= FGA shot_df l.
Proof.
  unfold FGM, FGA, group.
  induction 1 as [|s shot_df Hs _ IH]; cbn [filter]; [cbn; lia|].
  destruct (in_bin l s); [|exact IH].
  cbn [map fold_left List.length]. rewrite sum_from. lia.
Qed.

(** X4.  When every made-flag is 0 or 1, a bin never has more makes than
    attempts; its shooting percentage is [nan] exactly when it has no
    attempt, and a number between 0 and 1 otherwise. *)
Theorem X4_shooting_percentage_of_a_bin (shot_df : list shot) (l : string) :
  Forall (fun s => SHOT_MADE_FLAG s = 0 \/ SHOT_MADE_FLAG s = 1) shot_df ->
  let b := row_stats shot_df l in
  0 <= fgm b <= fga b
  /\ (fga b = 0 -> fg_pct b = NaN)
  /\ (0 < fga b -> exists q, fg_pct b = Fin q /\ (0 <= q <= 1)%Q)
  /\ (fg_pct b = NaN -> fga b = 0).
Proof.
  intros Hflags. cbv zeta. cbn [fgm fga fg_pct row_stats].
  pose proof (FGM_bounds shot_df l Hflags) as Hb.
  split; [exact Hb|]. split; [|split].
  - intros H0. assert (FGM shot_df l = 0) as -> by lia. now rewrite H0.
  - intros Hpos.
    destruct (ratio_in_unit_interval (FGM shot_df l) (FGA shot_df l) Hb Hpos)
      as (Hq & Hr). eauto.
  - intros Hnan. destruct (Z.eq_dec (FGA shot_df l) 0) as [|Hne]; [easy|].
    assert (Hpos : 0 < FGA shot_df l)
      by (pose proof (FGA_nonneg shot_df l); lia).
    destruct (ratio_in_unit_interval (FGM shot_df l) (FGA shot_df l) Hb Hpos)
      as (Hq & _). congruence.
Qed.

Lemma X4_witness :
  fg_pct (row_stats [mkShot 2 1; mkShot 3 0; mkShot 30 1] "0-3 ft")
  = Fin (1 / 2)
  /\ fg_pct (row_stats [mkShot 2 1; mkShot 3 0; mkShot 30 1] "10-16 ft")
     = NaN.
Proof.
  assert (Hflags : Forall (fun s => SHOT_MADE_FLAG s = 0
                                    \/ SHOT_MADE_FLAG s = 1)
                          [mkShot 2 1; mkShot 3 0; mkShot 30 1]).
  { repeat (apply Forall_cons; [cbn; auto|]). apply Forall_nil. }
  split.
  - reflexivity.
  - apply (proj1 (proj2 (X4_shooting_percentage_of_a_bin _ "10-16 ft"
                           Hflags))).
    reflexivity.
Defined.

End BinStatistics.

(** ** The seasons of [analyze_clutch_player] *)

Ltac run_season :=
  cbv [ClutchPlayerAnalysis.season_records ClutchPlayerAnalysis.season_lines
       ClutchPlayerAnalysis.season_alone
       ClutchPlayerAnalysis.process_season ClutchPlayerAnalysis.fetch_clutch
       ClutchPlayerAnalysis.fetch_shots_and_regular
       bind ret raise try_except print call read update sleep
       ClutchPlayerAnalysis.on_results ClutchPlayerAnalysis.on_season_data
       ClutchPlayerAnalysis.initial_vars] in *;
  cbn [stdout heap ClutchPlayerAnalysis.results
       ClutchPlayerAnalysis.season_data fst snd] in *.

Ltac season_fields :=
  cbn [stdout heap ClutchPlayerAnalysis.results
       ClutchPlayerAnalysis.season_data fst snd
       season clutch_basic clutch_advanced shot_distance regular_vs_clutch
       set_clutch_basic set_clutch_advanced set_shot_distance
       set_regular_vs_clutch new_season_data
       clutch_stats append_clutch_stats new_results] in *.

Section Seasons.
Import ClutchPlayerAnalysis.
Variable E : Env.
Variables (name : string) (pid : Z).


(** X6.  A season all of whose requests are answered, with a row for the
    player in the clutch and regular-season frames, prints nothing but its
    heading and stores one record: the clutch statistics, the advanced
    ones when that frame has a row for the player, the shot distances when
    the shot chart is not empty, and the comparison. *)
Theorem X6_answered_season_is_stored_whole
    (season : string) (df df_reg : list base_row) (b rr : base_row)
    (rest rest_reg : list base_row) (df_adv : list adv_row)
    (shot_df : list ShotDistance.shot) :
  LeagueDashPlayerClutch E season Base Per36 = Returned df ->
  select_player (m := Base) df name = b :: rest ->
  LeagueDashPlayerClutch E season Advanced Per36 = Returned df_adv ->
  ShotChartDetail E pid season = Returned shot_df ->
  LeagueDashPlayerStats E season Regular_Season Base Per36 = Returned df_reg ->
  select_player (m := Base) df_reg name = rr :: rest_reg ->
  season_lines E name pid season
  = [new_line ++ "Processing season: " ++ season]
  /\ season_records E name pid season =
     [{| season := season;
         clutch_basic := Some (make_clutch_basic b);
         clutch_advanced :=
           match select_player (m := Advanced) df_adv name with
           | a :: _ => Some (make_clutch_advanced a)
           | [] => None
           end;
         shot_distance :=
           if empty shot_df then None
           else Some (ShotDistance.shot_distance shot_df);
         regular_vs_clutch :=
           Some (make_comparison rr b (make_clutch_basic b)) |}].
Proof.
  intros Hb Hs Ha Hshot Hreg Hsr. run_season.
  rewrite Hb, Hs. season_fields. rewrite Ha.
  destruct (select_player (m := Advanced) df_adv name); season_fields;
    rewrite Hshot;
    destruct (empty shot_df); season_fields; rewrite Hreg, Hsr;
    season_fields; split; reflexivity.
Qed.

(** What every stored record satisfies. *)
Lemma season_record_invariant (season : string) (d : season_data_t) :
  In d (season_records E name pid season) ->
  (exists b, clutch_basic d = Some b)
  /\ forall c b,
       regular_vs_clutch d = Some c -> clutch_basic d = Some b ->
       clutch c Pts = pts b /\ clutch c Fg_pct = fg_pct b
       /\ clutch c Fg3_pct = fg3_pct b /\ clutch c Ft_pct = ft_pct b
       /\ clutch c Ast = ast b /\ clutch c Tov = tov b
       /\ clutch c Ast_to_tov = ast_to_tov b.
Proof.
  run_season. repeat (split_match; season_fields); intros HIn;
    try contradiction; try discriminate;
    destruct HIn as [<-|[]]; season_fields;
    (split; [eauto|]); intros c b0 Hc Hb0; try discriminate;
    injection Hc as <-; injection Hb0 as <-;
    repeat split; reflexivity.
Qed.

End Seasons.


Lemma X6_witness :
  ClutchPlayerAnalysis.season_lines Examples.nominal "Chris Paul" 101108 "2020-21"
  = [new_line ++ "Processing season: 2020-21"].
Proof.
  apply (X6_answered_season_is_stored_whole
           Examples.nominal "Chris Paul" 101108 "2020-21"
           [Examples.paul_base 9 2] [Examples.paul_base 10 0]
           (Examples.paul_base 9 2) (Examples.paul_base 10 0) [] []
           [Examples.paul_adv] (Examples.shots_of "2020-21"));
    reflexivity.
Defined.


(** ** The first step: the player *)

Section Selection.
Variable E : Env.
Context {H : Type}.

Lemma item_nth {A : Type} (l : list A) (n : Z) (x : A) :
  item l n = Returned x <-> 0 <= n /\ nth_error l (Z.to_nat n) = Some x.
Proof.
  unfold item. destruct (Z.leb_spec 0 n) as [Hn|Hn].
  - destruct (nth_error l (Z.to_nat n)) as [y|]; split.
    + intros [= ->]. now split.
    + intros (_ & [= ->]). reflexivity.
    + discriminate.
    + intros (_ & [=]).
  - split; [discriminate|]. intros (Hn' & _). lia.
Qed.

(** X7.  With several matches and a typed number [n] that indexes them,
    the lookup lists the matches, reports the choice and resolves to the
    identifier of the [n]-th match (counted from 0). *)
Theorem X7_selection_picks_the_nth_match
    (name : string) (player_dict : list player) (n : Z) (p : player)
    (w : world H) :
  find_players_by_full_name E name = Returned player_dict ->
  (1 < List.length player_dict)%nat ->
  py_int E (input E prompt) = Some n ->
  0 <= n ->
  nth_error player_dict (Z.to_nat n) = Some p ->
  resolve_player E name w =
  (Returned (Some (id p)),
   {| stdout := stdout w
                ++ ("Multiple players found for " ++ name ++ ":")
                   :: map option_line (enumerate player_dict)
                ++ ["Selected player ID: " ++ str (id p)];
      heap := heap w |}).
Proof.
  intros Hf Hlen Hn H0 Hp.
  assert (Hrange : n < Z.of_nat (List.length player_dict)).
  { assert (Z.to_nat n < List.length player_dict)%nat
      by (apply nth_error_Some; congruence). lia. }
  unfold resolve_player, bind, call. rewrite Hf.
  destruct player_dict as [|p0 l]; [cbn in Hlen; lia|].
  cbn [empty].
  replace (1 <? Z.of_nat (List.length (p0 :: l))) with true
    by (symmetry; apply Z.ltb_lt; lia).
  unfold print at 1. cbn [stdout heap]. rewrite for_each_print, Hn.
  replace ((0 <=? n) && (n <? Z.of_nat (List.length (p0 :: l)))) with true
    by (symmetry; apply andb_true_intro; split;
        [apply Z.leb_le|apply Z.ltb_lt]; lia).
  rewrite (proj2 (item_nth (p0 :: l) n p) (conj H0 Hp)).
  unfold print, ret. cbn [stdout heap]. now rewrite <- !app_assoc.
Qed.

(** Whoever the lookup resolves to is one of the matches. *)
Lemma resolve_player_some (name : string) (pid : Z) (w w' : world H) :
  resolve_player E name w = (Returned (Some pid), w') ->
  exists player_dict p,
    find_players_by_full_name E name = Returned player_dict
    /\ In p player_dict /\ id p = pid.
Proof.
  unfold resolve_player, bind, call.
  destruct (find_players_by_full_name E name) as [player_dict|e];
    [|discriminate].
  destruct (empty player_dict); [discriminate|].
  destruct (1 <? _).
  - unfold print at 1. cbn [stdout heap]. rewrite for_each_print.
    destruct (py_int E _) as [n|]; [|discriminate].
    destruct (_ && _); [|discriminate].
    destruct (item player_dict n) as [p|e] eqn:Hp; [|discriminate].
    unfold print, ret. cbn [stdout heap]. intros [= <- _].
    apply item_nth in Hp. destruct Hp as (_ & Hp).
    exists player_dict, p. repeat split. now apply nth_error_In in Hp.
  - destruct (item player_dict 0) as [p|e] eqn:Hp; [|discriminate].
    unfold print, ret. cbn [stdout heap]. intros [= <- _].
    apply item_nth in Hp. destruct Hp as (_ & Hp).
    exists player_dict, p. repeat split. now apply nth_error_In in Hp.
Qed.

(** When the lookup itself raises, so does the step. *)
Lemma resolve_player_raises (name : string) (e : exn) (w : world H) :
  find_players_by_full_name E name = Raised e ->
  resolve_player E name w = (Raised e, w).
Proof.
  intros Hf. unfold resolve_player, bind, call. now rewrite Hf.
Qed.

End Selection.

Lemma X7_witness :
  fst (resolve_player
         {| find_players_by_full_name := fun _ =>
              Returned [Examples.paul; mkPlayer 7 "Chris Paul" false];
            input := fun _ => "1";
            py_int := fun _ => Some 1;
            CommonPlayerInfo := CommonPlayerInfo Examples.nominal;
            LeagueDashPlayerClutch := LeagueDashPlayerClutch Examples.nominal;
            LeagueDashPlayerStats := LeagueDashPlayerStats Examples.nominal;
            ShotChartDetail := ShotChartDetail Examples.nominal |}
         "Chris Paul" {| stdout := []; heap := tt |})
  = Returned (Some 7).
Proof.
  rewrite (X7_selection_picks_the_nth_match _ "Chris Paul"
             [Examples.paul; mkPlayer 7 "Chris Paul" false] 1
             (mkPlayer 7 "Chris Paul" false));
    try reflexivity; cbn; lia.
Defined.

Section FirstStep.
Import ClutchPlayerAnalysis.
Variable E : Env.
Variable show : Visualize.figure -> outcome unit.
Variable name : string.

(** The world in which [get_player_info] starts. *)
Lemma run_unfold (seasons : option (list string)) :
  run E show name seasons =
  bind (get_player_info E name)
       (fun r =>
          match r with
          | Some player_id =>
              bind (for_each (requested seasons)
                      (process_season E name player_id))
                (fun _ =>
                   bind read
                     (fun h =>
                        bind (if empty (clutch_stats (results h)) then ret tt
                              else visualize_player_analysis show (results h))
                          (fun _ =>
                             bind read (fun h => ret (Some (results h))))))
          | None => ret None
          end)
       {| stdout := ["Analyzing " ++ name
                     ++ "'s clutch performance for seasons: "
                     ++ join ", " (requested seasons)];
          heap := {| results := new_results name (requested seasons);
                     season_data := new_season_data "" |} |}.
Proof. reflexivity. Qed.

Lemma get_player_info_some (pid : Z) (w w' : world vars) :
  get_player_info E name w = (Returned (Some pid), w') ->
  exists w1 info rest,
    resolve_player E name w = (Returned (Some pid), w1)
    /\ CommonPlayerInfo E pid = Returned (info :: rest)
    /\ results (heap w') =
       set_player_info {| height := HEIGHT info; weight := WEIGHT info;
                          player_id := pid |} (results (heap w)).
Proof.
  unfold get_player_info, try_except, bind.
  pose proof (resolve_player_heap E name w) as Hh.
  destruct (resolve_player E name w) as [[[pid'|]|e] w1]; cbn [snd] in Hh.
  - unfold call. destruct (CommonPlayerInfo E pid') as [[|info df]|e] eqn:Hc;
      unfold print, ret, update, on_results;
      cbn [stdout heap results season_data]; try discriminate.
    intros [= <- <-]. cbn [heap results]. rewrite Hh. eauto 6.
  - unfold ret. discriminate.
  - unfold print, ret. discriminate.
Qed.

(** X8.  A returned [results] echoes the name and the seasons, never
    fills its own 'shot_distance' and 'regular_vs_clutch' lists, and
    always has the player's info: the height and weight of the first row
    of the info frame, and the identifier of one of the lookup's
    matches. *)
Theorem X8_shape_of_the_results
    (seasons : option (list string)) (r : results_t) (w : world vars) :
  run E show name seasons = (Returned (Some r), w) ->
  player_name r = name
  /\ Analysis.seasons r = requested seasons
  /\ results_shot_distance r = []
  /\ results_regular_vs_clutch r = []
  /\ exists player_dict p info rest,
       find_players_by_full_name E name = Returned player_dict
       /\ In p player_dict
       /\ CommonPlayerInfo E (id p) = Returned (info :: rest)
       /\ player_info r =
          Some {| height := HEIGHT info; weight := WEIGHT info;
                  player_id := id p |}.
Proof.
  rewrite run_unfold.
  match goal with
  | |- context [bind (get_player_info E name) _ ?w0] =>
      destruct (get_player_info_returns E name w0) as (o & w1 & Hg & _ & _)
  end.
  rewrite (bind_returned _ _ _ _ _ Hg).
  destruct o as [pid|]; [|discriminate].
  destruct (get_player_info_some pid _ _ Hg)
    as (w2 & info & rest & Hres & Hinfo & Hr).
  destruct (resolve_player_some E name pid _ _ Hres)
    as (player_dict & p & Hf & Hp & <-).
  destruct (seasons_loop E name (id p) (requested seasons) w1)
    as (d & Hloop).
  rewrite (bind_returned _ _ _ _ _ Hloop), bind_read.
  cbn [heap results]. rewrite Hr, append_all.
  cbn [heap results Analysis.player_name Analysis.seasons player_info
       clutch_stats results_shot_distance results_regular_vs_clutch
       set_player_info new_results app].
  intros Hrun.
  assert (Hr' : r =
                {| Analysis.player_name := name;
                   Analysis.seasons := requested seasons;
                   player_info :=
                     Some {| height := HEIGHT info; weight := WEIGHT info;
                             player_id := id p |};
                   clutch_stats :=
                     flat_map (season_records E name (id p))
                              (requested seasons);
                   results_shot_distance := [];
                   results_regular_vs_clutch := [] |}).
  { revert Hrun. unfold bind, visualize_player_analysis, call, read, ret.
    destruct (empty _); [|destruct (show _)]; cbn [heap results];
      congruence. }
  subst r. cbn. repeat split. exists player_dict, p, info, rest. auto.
Qed.

(** X9.  When the name resolves to a player whose info request raises,
    or answers with an empty frame, [analyze_clutch_player] says so in its
    last line and returns [None]; no season has been processed.  It is
    this player's request that counts, whatever the endpoint answers for
    others. *)
Theorem X9_no_player_info_no_analysis
    (seasons : option (list string)) (p : player) :
  resolves_to E name p ->
  (exists e, CommonPlayerInfo E (id p) = Raised e)
  \/ CommonPlayerInfo E (id p) = Returned [] ->
  exists w,
    run E show name seasons = (Returned None, w)
    /\ ((exists e,
           CommonPlayerInfo E (id p) = Raised e
           /\ last (stdout w) "" = "Error getting player info: " ++ e)
        \/ (CommonPlayerInfo E (id p) = Returned []
            /\ last (stdout w) ""
               = "Could not find player info for " ++ name))
    /\ clutch_stats (results (heap w)) = [].
Proof.
  intros Hres Hinfo. rewrite run_unfold.
  match goal with
  | |- context [bind (get_player_info E name) _ ?w0] =>
      destruct (resolve_player_resolves_to E name p w0 Hres)
        as (w1 & Hr & Hheap);
      assert (Hg : exists line,
                 get_player_info E name w0
                 = (Returned None,
                    {| stdout := stdout w1 ++ [line]; heap := heap w1 |})
                 /\ ((exists e,
                        CommonPlayerInfo E (id p) = Raised e
                        /\ line = "Error getting player info: " ++ e)
                     \/ (CommonPlayerInfo E (id p) = Returned []
                         /\ line = "Could not find player info for "
                                   ++ name)))
  end.
  { unfold get_player_info, try_except.
    rewrite (bind_returned _ _ _ _ _ Hr). unfold bind, call.
    destruct Hinfo as [(e & Hinfo)|Hinfo]; rewrite Hinfo;
      unfold print, ret; cbn [stdout heap];
      eexists; (split; [reflexivity|]); [left|right]; eauto. }
  destruct Hg as (line & Hg & Hline).
  rewrite (bind_returned _ _ _ _ _ Hg). eexists. split; [reflexivity|].
  cbn [stdout heap]. split.
  - rewrite last_last.
    destruct Hline as [(e & He & ->)|(He & ->)]; [left|right]; eauto.
  - rewrite Hheap. reflexivity.
Qed.

(** X10.  An exception of the lookup itself is handled by
    [analyze_clutch_player], which reports it and returns [None], and is
    not handled by [compare_net_rating], which raises it. *)
Theorem X10_a_raising_lookup
    (show_c : CompareNetRating.figure -> outcome unit)
    (seasons : option (list string)) (e : exn) :
  find_players_by_full_name E name = Raised e ->
  (exists w,
      run E show name seasons = (Returned None, w)
      /\ last (stdout w) "" = "Error getting player info: " ++ e)
  /\ exists w, CompareNetRating.run E show_c name seasons = (Raised e, w).
Proof.
  intros Hf. split.
  - rewrite run_unfold.
    match goal with
    | |- context [bind (get_player_info E name) _ ?w0] =>
        assert (Hg : get_player_info E name w0 =
                     (Returned None,
                      {| stdout := stdout w0
                                   ++ ["Error getting player info: " ++ e];
                         heap := heap w0 |}))
    end.
    { unfold get_player_info, try_except.
      rewrite (bind_raised _ _ _ _ _ (resolve_player_raises E name e _ Hf)).
      reflexivity. }
    rewrite (bind_returned _ _ _ _ _ Hg). eexists. split; [reflexivity|].
    cbn [stdout]. apply last_last.
  - unfold CompareNetRating.run, CompareNetRating.compare_net_rating.
    rewrite bind_print.
    rewrite (bind_raised _ _ _ _ _ (resolve_player_raises E name e _ Hf)).
    eauto.
Qed.

End FirstStep.

Lemma X8_witness :
  exists r w,
    ClutchPlayerAnalysis.run Examples.nominal Examples.show_ok "Chris Paul"
      None = (Returned (Some r), w)
    /\ Analysis.seasons r
       = ["2019-20"; "2020-21"; "2021-22"; "2022-23"; "2023-24"]
    /\ results_shot_distance r = [].
Proof.
  do 2 eexists. split; [vm_compute; reflexivity|].
  edestruct (X8_shape_of_the_results
               Examples.nominal Examples.show_ok "Chris Paul" None)
    as (_ & Hs & Hd & _); [vm_compute; reflexivity|].
  split; [exact Hs|exact Hd].
Defined.

Lemma X9_witness :
  resolves_to Examples.info_down "Chris Paul" Examples.paul
  /\ CommonPlayerInfo Examples.info_down 7
     = Returned [mkInfo "6-0" "175"]
  /\ exists w,
       ClutchPlayerAnalysis.run Examples.info_down Examples.show_ok
         "Chris Paul" None = (Returned None, w).
Proof.
  assert (Hres : resolves_to Examples.info_down "Chris Paul" Examples.paul).
  { eexists. split; [reflexivity|]. left. reflexivity. }
  split; [exact Hres|]. split; [reflexivity|].
  destruct (X9_no_player_info_no_analysis
              Examples.info_down Examples.show_ok "Chris Paul" None
              Examples.paul Hres)
    as (w & Hrun & _).
  - left. eexists. reflexivity.
  - now exists w.
Defined.

Lemma X10_witness :
  exists w,
    CompareNetRating.run Examples.lookup_broken Examples.show_ok
      "Chris (Paul" None = (Raised "missing ), unterminated subpattern", w).
Proof.
  apply (X10_a_raising_lookup
           Examples.lookup_broken Examples.show_ok "Chris (Paul"
           Examples.show_ok None "missing ), unterminated subpattern").
  reflexivity.
Defined.

(** ** What is returned, and what is drawn *)

Section Returns.
Import ClutchPlayerAnalysis.
Variable E : Env.
Variable show : Visualize.figure -> outcome unit.
Variable name : string.

Lemma seasons_of_records (pid : Z) (ss : list string) :
  map season (flat_map (season_records E name pid) ss)
  = filter (fun s => negb (empty (season_records E name pid s))) ss.
Proof.
  induction ss as [|s ss IH]; [reflexivity|].
  cbn [flat_map filter]. rewrite map_app, IH.
  destruct (season_records E name pid s) as [|d l] eqn:Hrec;
    [reflexivity|].
  destruct (season_records_fetched E name pid s d) as (Hone & Hs & _).
  { rewrite Hrec. now left. }
  rewrite Hrec in Hone. injection Hone as ->. cbn. now rewrite Hs.
Qed.

(** X11.  The records returned come in the order of the requested
    seasons, one for each season that got a record; every record has the
    basic clutch statistics, and where a record has the comparison, its
    clutch side repeats them. *)
Theorem X11_records_of_the_results
    (seasons : option (list string)) (r : results_t) (w : world vars) :
  run E show name seasons = (Returned (Some r), w) ->
  exists info,
    player_info r = Some info
    /\ map season (clutch_stats r)
       = filter (fun s => negb (empty (season_records E name
                                         (player_id info) s)))
                (requested seasons)
    /\ forall d, In d (clutch_stats r) ->
         (exists b, clutch_basic d = Some b)
         /\ forall c b,
              regular_vs_clutch d = Some c -> clutch_basic d = Some b ->
              clutch c Pts = pts b /\ clutch c Fg_pct = fg_pct b
              /\ clutch c Fg3_pct = fg3_pct b /\ clutch c Ft_pct = ft_pct b
              /\ clutch c Ast = ast b /\ clutch c Tov = tov b
              /\ clutch c Ast_to_tov = ast_to_tov b.
Proof.
  intros Hrun.
  destruct (run_returned E show name seasons r w Hrun)
    as (info & Hinfo & _ & Hstats & _).
  exists info. split; [exact Hinfo|]. rewrite Hstats.
  split; [apply seasons_of_records|].
  intros d Hd. apply in_flat_map in Hd. destruct Hd as (s & _ & Hd).
  now apply (season_record_invariant E name (player_id info) s).
Qed.

(** What a call amounts to, for every display at once. *)
Lemma run_cases_any_display (seasons : option (list string)) :
  (exists w, forall shown, run E shown name seasons = (Returned None, w))
  \/ exists info header d,
       let r :=
         {| Analysis.player_name := name;
            Analysis.seasons := requested seasons;
            player_info := Some info;
            clutch_stats :=
              flat_map (season_records E name (player_id info))
                       (requested seasons);
            results_shot_distance := [];
            results_regular_vs_clutch := [] |} in
       forall shown,
         run E shown name seasons =
         ((if empty (clutch_stats r) then Returned (Some r)
           else match shown (Visualize.player_figure r) with
                | Returned _ => Returned (Some r)
                | Raised e => Raised e
                end),
          {| stdout :=
               header ++ flat_map (season_lines E name (player_id info))
                                  (requested seasons);
             heap := {| results := r; season_data := d |} |}).
Proof.
  match goal with
  | |- context [run E _ name seasons] =>
      destruct (get_player_info_returns E name
                  {| stdout := ["Analyzing " ++ name
                                ++ "'s clutch performance for seasons: "
                                ++ join ", " (requested seasons)];
                     heap := {| results := new_results name
                                             (requested seasons);
                                season_data := new_season_data "" |} |})
        as (o & w1 & Hg & Hd & Ho)
  end.
  destruct o as [pid|].
  - right. destruct Ho as (info & <- & Hr). cbn [heap results] in Hr.
    destruct (seasons_loop E name (player_id info) (requested seasons) w1)
      as (d & Hloop).
    exists info, (stdout w1), d. cbv zeta. intros shown.
    rewrite run_unfold, (bind_returned _ _ _ _ _ Hg).
    rewrite (bind_returned _ _ _ _ _ Hloop), bind_read.
    cbn [heap results]. rewrite Hr, append_all.
    cbn [Analysis.player_name Analysis.seasons player_info clutch_stats
         results_shot_distance results_regular_vs_clutch
         set_player_info new_results app].
    destruct (empty _).
    + reflexivity.
    + unfold bind, visualize_player_analysis, call, read, ret.
      destruct (shown _) as [[]|e]; reflexivity.
  - left. exists w1. intros shown.
    now rewrite run_unfold, (bind_returned _ _ _ _ _ Hg).
Qed.

(** X12.  The display is the one step without a handler.  Take a call
    that returns a result under some display.  Under a display that
    raises, the same call returns the same result if no season got a
    record (nothing is drawn), and raises otherwise.
    [compare_net_rating] always draws: with a display that raises it
    raises for every resolved name, although all its rows were built.
    What it raises is the display's exception, unless no season was
    requested: then [melt] has raised its [KeyError] before. *)
Theorem X12_a_raising_display
    (show_c : CompareNetRating.figure -> outcome unit)
    (seasons : option (list string)) (e : exn)
    (r : results_t) (w : world vars) :
  (forall f, show f = Raised e) ->
  (forall f, show_c f = Raised e) ->
  (forall shown,
      run E shown name seasons = (Returned (Some r), w) ->
      (clutch_stats r = [] ->
       run E show name seasons = (Returned (Some r), w))
      /\ (clutch_stats r <> [] ->
          run E show name seasons = (Raised e, w)))
  /\ (resolvable E name ->
      exists e' w',
        CompareNetRating.run E show_c name seasons = (Raised e', w')
        /\ (requested seasons <> [] -> e' = e)
        /\ (requested seasons = [] ->
            e' = CompareNetRating.KeyError ["Season"])).
Proof.
  intros Hshow Hshow_c. split.
  - intros shown Hrun.
    destruct (run_cases_any_display seasons)
      as [(w0 & H0)|(info & header & d & Hall)].
    + rewrite H0 in Hrun. discriminate.
    + cbv zeta in Hall. rewrite (Hall shown) in Hrun. rewrite (Hall show).
      rewrite Hshow.
      destruct (flat_map _ _) as [|d0 l] eqn:Hfm;
        cbn [empty clutch_stats] in *.
      * injection Hrun as <- <-. cbn [clutch_stats].
        split; [reflexivity|congruence].
      * destruct (shown _); [|discriminate].
        injection Hrun as <- <-. cbn [clutch_stats].
        split; [discriminate|reflexivity].
  - intros Hres.
    destruct (resolve_player_resolvable E name
                {| stdout := ["Comparing " ++ name
                              ++ "'s NET_RATING for seasons: "
                              ++ join ", " (requested seasons)];
                   heap := CompareNetRating.initial_vars |} Hres)
      as (pid & w1 & Hr & _).
    destruct (run_net_resolved E show_c name seasons pid w1 Hr)
      as (d & Hc).
    rewrite Hshow_c in Hc.
    destruct (requested seasons) as [|s l]; cbn [empty] in Hc;
      do 2 eexists; (split; [exact Hc|]); split; congruence.
Qed.

End Returns.

Lemma X11_witness :
  exists r w,
    ClutchPlayerAnalysis.run Examples.clutch_down_once Examples.show_ok
      "Chris Paul" (Some ["2020-21"; "2021-22"; "2022-23"])
    = (Returned (Some r), w)
    /\ map season (clutch_stats r) = ["2020-21"; "2022-23"].
Proof.
  do 2 eexists. split; [vm_compute; reflexivity|].
  edestruct (X11_records_of_the_results
               Examples.clutch_down_once Examples.show_ok "Chris Paul"
               (Some ["2020-21"; "2021-22"; "2022-23"]))
    as (info & Hinfo & Hseasons & _); [vm_compute; reflexivity|].
  rewrite Hseasons. injection Hinfo as <-. vm_compute. reflexivity.
Defined.

Lemma X12_witness :
  exists w,
    CompareNetRating.run Examples.nominal
      (fun _ => Raised "no display") "Chris Paul" (Some ["2020-21"])
    = (Raised "no display", w).
Proof.
  destruct (proj2 (X12_a_raising_display
                     Examples.nominal (fun _ => Raised "no display")
                     "Chris Paul" (fun _ => Raised "no display")
                     (Some ["2020-21"]) "no display"
                     (new_results "" [])
                     {| stdout := [];
                        heap := ClutchPlayerAnalysis.initial_vars |}
                     (fun _ => eq_refl) (fun _ => eq_refl)))
    as (e' & w' & Hrun & Hdisplay & _).
  - eexists. split; [reflexivity|]. left. reflexivity.
  - exists w'. rewrite Hrun, (Hdisplay ltac:(discriminate)). reflexivity.
Defined.

(** ** The panels *)

Section ComparisonPanel.
Import Visualize.

(** X13.  The comparison panel is drawn exactly when some season has a
    comparison.  Its bars are then, for the regular season and for the
    clutch, the sum of a metric over the seasons that have a comparison
    divided by the number of those seasons: points, assists, turnovers and
    assist-to-turnover ratio on one axis, the three shooting percentages on
    the other. *)
Theorem X13_bars_of_the_comparison_panel (stats : list season_data_t) :
  let cs := comparisons stats in
  let mean (side : comparison -> metric -> Q) (m : metric) : Q :=
    (CompareNetRating.Qsum (map (fun c => side c m) cs)
     / inject_Z (Z.of_nat (List.length cs)))%Q in
  (cs = [] -> comparison_bars stats = None)
  /\ (cs <> [] ->
      exists chart,
        comparison_bars stats = Some chart
        /\ Forall2 Qeq (regular_count_vals chart)
                   (map (mean regular) [Pts; Ast; Tov; Ast_to_tov])
        /\ Forall2 Qeq (clutch_count_vals chart)
                   (map (mean clutch) [Pts; Ast; Tov; Ast_to_tov])
        /\ Forall2 Qeq (regular_pct_vals chart)
                   (map (mean regular) [Fg_pct; Fg3_pct; Ft_pct])
        /\ Forall2 Qeq (clutch_pct_vals chart)
                   (map (mean clutch) [Fg_pct; Fg3_pct; Ft_pct])).
Proof.
  cbv zeta.
  assert (Hn : count (season_totals stats)
               = Z.of_nat (List.length (comparisons stats)))
    by apply (comparison_average stats Pts).
  unfold comparison_bars. rewrite Hn. split.
  - intros ->. reflexivity.
  - intros Hne.
    replace (0 <? Z.of_nat (List.length (comparisons stats))) with true
      by (symmetry; apply Z.ltb_lt;
          destruct (comparisons stats) eqn:Hcs;
          [congruence|cbn [List.length]; lia]).
    eexists. split; [reflexivity|].
    cbn [regular_count_vals clutch_count_vals regular_pct_vals
         clutch_pct_vals].
    change count_metrics with [Pts; Ast; Tov; Ast_to_tov].
    unfold pct_metrics. cbn [map].
    repeat split;
      repeat (apply Forall2_cons;
              [apply (comparison_average stats) |]); apply Forall2_nil.
Qed.

End ComparisonPanel.

Lemma X13_witness :
  Visualize.comparison_bars [new_season_data "2020-21"] = None.
Proof.
  apply (X13_bars_of_the_comparison_panel [new_season_data "2020-21"]).
  reflexivity.
Defined.

Section NetRatingAverages.
Import CompareNetRating.
Variable E : Env.
Variable show : figure -> outcome unit.
Variable name : string.

Lemma numbers_of_rows (ss : list string) (rows : list (Py.dict value))
    (cols : list string) (c : string) :
  In c net_rating_columns ->
  Forall2 (fetched_row E name) ss rows ->
  numbers {| columns := cols; records := rows |} c =
  flat_map (fun s =>
              match request E s c with
              | Returned adf =>
                  match select_player (m := Advanced) adf name with
                  | r :: _ => [NET_RATING r]
                  | [] => []
                  end
              | Raised _ => []
              end) ss.
Proof.
  intros Hc Hall. unfold numbers. cbn [records].
  induction Hall as [|s r l l' Hr _ IH]; [reflexivity|].
  cbn [flat_map]. rewrite IH. f_equal.
  destruct Hr as (v1 & v2 & v3 & -> & H1 & H2 & H3).
  unfold stored in *.
  destruct Hc as [<-|[<-|[<-|[]]]]; cbn [cell season_row Py.get String.eqb
                                          Ascii.eqb Bool.eqb].
  - destruct (request E s "Regular Season") as [adf|e];
      [destruct (select_player (m := Advanced) adf name)|]; now subst.
  - destruct (request E s "Clutch") as [adf|e];
      [destruct (select_player (m := Advanced) adf name)|]; now subst.
  - destruct (request E s "Playoffs") as [adf|e];
      [destruct (select_player (m := Advanced) adf name)|]; now subst.
Qed.

(** X14.  The average printed for a column of the returned frame is taken
    over the seasons whose request was answered with a row for the player:
    the sum of their NET_RATINGs divided by their number.  Seasons whose
    request raised or had no row do not count, and with no season left the
    average is [nan]. *)
Theorem X14_average_net_rating
    (seasons : option (list string)) (df : DataFrame) (w : world vars)
    (c : string) :
  run E show name seasons = (Returned (Some df), w) ->
  In c net_rating_columns ->
  let answered :=
    flat_map (fun s =>
                match request E s c with
                | Returned adf =>
                    match select_player (m := Advanced) adf name with
                    | r :: _ => [NET_RATING r]
                    | [] => []
                    end
                | Raised _ => []
                end) (requested seasons) in
  In (c, mean df c) (average_net_rating df)
  /\ (answered = [] -> mean df c = NaN)
  /\ (answered <> [] ->
      mean df c
      = Fin (Qsum answered / inject_Z (Z.of_nat (List.length answered)))).
Proof.
  intros Hrun Hc answered.
  destruct (run_net_returned E show name seasons df w Hrun) as (Hrec & _).
  pose proof (season_rows_all E name (requested seasons)) as Hall.
  rewrite <- Hrec in Hall.
  assert (Hnum : numbers df c = answered).
  { replace df with {| columns := columns df; records := records df |}
      by now destruct df.
    exact (numbers_of_rows (requested seasons) (records df)
             (columns df) c Hc Hall). }
  clearbody answered.
  split; [|split].
  - unfold average_net_rating.
    destruct Hc as [<-|[<-|[<-|[]]]]; cbn; auto.
  - intros Hnone. unfold mean. rewrite Hnum, Hnone. reflexivity.
  - intros Hsome. unfold mean. rewrite Hnum.
    unfold fdiv, of_Z. rewrite Qzero_b_inject_Z.
    destruct answered as [|q l]; [congruence|].
    replace (Z.of_nat (List.length (q :: l)) =? 0) with false;
      [reflexivity|].
    symmetry. apply Z.eqb_neq. cbn [List.length]. lia.
Qed.

End NetRatingAverages.

Lemma X14_witness :
  exists df w,
    CompareNetRating.run Examples.missed_playoffs Examples.show_ok
      "Chris Paul" (Some ["2019-20"; "2020-21"]) = (Returned (Some df), w)
    /\ CompareNetRating.mean df "Playoffs" = NaN.
Proof.
  do 2 eexists. split; [vm_compute; reflexivity|].
  eapply (X14_average_net_rating
            Examples.missed_playoffs Examples.show_ok "Chris Paul"
            (Some ["2019-20"; "2020-21"])).
  - vm_compute. reflexivity.
  - right. right. left. reflexivity.
  - reflexivity.
Defined.

Section DistancePanel.
Import Visualize.

Lemma get_set_same {V : Type} (d : Py.dict V) (k : string) (v : V) :
  Py.get (Py.set d k v) k = Some v.
Proof.
  induction d as [|[k' v'] d IH]; cbn.
  - now rewrite String.eqb_refl.
  - destruct (String.eqb k' k) eqn:Hk; cbn; rewrite Hk; [reflexivity|exact IH].
Qed.

Lemma get_set_other {V : Type} (d : Py.dict V) (k k' : string) (v : V) :
  String.eqb k k' = false -> Py.get (Py.set d k v) k' = Py.get d k'.
Proof.
  intros Hkk'. induction d as [|[k0 v0] d IH]; cbn.
  - now rewrite Hkk'.
  - destruct (String.eqb k0 k) eqn:Hk; cbn.
    + apply String.eqb_eq in Hk. subst k0. now rewrite Hkk'.
    + destruct (String.eqb k0 k'); [reflexivity|exact IH].
Qed.

Lemma add_bin_get (dd : Py.dict distance_totals) (k k' : string)
    (b : ShotDistance.bin_stats) :
  Py.get (add_bin dd (k, b)) k' =
  if String.eqb k k' then Some (add_stats (or_zero (Py.get dd k)) b)
  else Py.get dd k'.
Proof.
  unfold add_bin, Py.mem.
  destruct (Py.get dd k) as [t|] eqn:Hg.
  - rewrite Hg. destruct (String.eqb k k') eqn:Hk.
    + apply String.eqb_eq in Hk. subst k'. rewrite get_set_same.
      unfold add_stats, or_zero.
      destruct (0 <? ShotDistance.fga b); reflexivity.
    + now rewrite get_set_other.
  - rewrite get_set_same. destruct (String.eqb k k') eqn:Hk.
    + apply String.eqb_eq in Hk. subst k'. rewrite get_set_same.
      unfold add_stats, or_zero.
      destruct (0 <? ShotDistance.fga b); reflexivity.
    + rewrite !get_set_other by exact Hk. reflexivity.
Qed.

Lemma fold_add_bin_get (items : Py.dict ShotDistance.bin_stats)
    (dd : Py.dict distance_totals) (k : string) :
  Py.get (fold_left add_bin items dd) k =
  fold_left (fun g b => Some (add_stats (or_zero g) b))
    (map snd (filter (fun item => String.eqb (fst item) k) items))
    (Py.get dd k).
Proof.
  revert dd. induction items as [|[k0 b] items IH]; intros dd;
    [reflexivity|].
  cbn [fold_left filter fst]. rewrite IH, add_bin_get.
  destruct (String.eqb k0 k) eqn:Hk; [|reflexivity].
  apply String.eqb_eq in Hk. subst k0. reflexivity.
Qed.

Lemma distance_data_get_from (stats : list season_data_t)
    (dd : Py.dict distance_totals) (k : string) :
  Py.get (fold_left add_season_distances stats dd) k =
  fold_left (fun g b => Some (add_stats (or_zero g) b))
    (bin_column stats k) (Py.get dd k).
Proof.
  revert dd. induction stats as [|d stats IH]; intros dd; [reflexivity|].
  cbn [fold_left]. unfold bin_column. cbn [flat_map].
  fold (bin_column stats k). rewrite fold_left_app, IH.
  unfold add_season_distances. destruct (shot_distance d) as [bins|].
  - now rewrite fold_add_bin_get.
  - reflexivity.
Qed.

Lemma totals_from (column : list ShotDistance.bin_stats)
    (t : distance_totals) :
  fold_left (fun g b => Some (add_stats (or_zero g) b)) column (Some t) =
  Some {| d_pct_fga :=
            fold_left fadd (map ShotDistance.pct_fga column) (d_pct_fga t);
          d_fg_pct :=
            fold_left fadd
              (map ShotDistance.fg_pct (with_attempts column)) (d_fg_pct t);
          d_count := d_count t + Z.of_nat (List.length column);
          d_fga :=
            fold_left Z.add
              (map ShotDistance.fga (with_attempts column)) (d_fga t) |}.
Proof.
  revert t. induction column as [|b column IH]; intros t.
  - cbn. destruct t. cbn. now rewrite Z.add_0_r.
  - cbn [fold_left or_zero]. rewrite IH.
    unfold with_attempts, add_stats. cbn [filter map List.length
      d_pct_fga d_fg_pct d_count d_fga fold_left].
    destruct (0 <? ShotDistance.fga b); cbn [map fold_left];
      f_equal; f_equal; lia.
Qed.

(** The totals kept for a bin: over the seasons that have the bin, the sum
    of the frequencies and the number of seasons; over those with an
    attempt, the sum of the percentages and of the attempts. *)
Lemma distance_totals_of_bin (stats : list season_data_t) (k : string) :
  Py.get (distance_data stats) k =
  match bin_column stats k with
  | [] => None
  | _ :: _ =>
      Some {| d_pct_fga :=
                fsum (map ShotDistance.pct_fga (bin_column stats k));
              d_fg_pct :=
                fsum (map ShotDistance.fg_pct
                          (with_attempts (bin_column stats k)));
              d_count := Z.of_nat (List.length (bin_column stats k));
              d_fga :=
                fold_left Z.add
                  (map ShotDistance.fga (with_attempts (bin_column stats k)))
                  0 |}
  end.
Proof.
  unfold distance_data. rewrite distance_data_get_from.
  cbn [Py.get]. destruct (bin_column stats k) as [|b column];
    [reflexivity|].
  cbn [fold_left or_zero]. rewrite totals_from.
  unfold with_attempts, add_stats, zero_distance, fsum.
  cbn [filter map List.length d_pct_fga d_fg_pct d_count d_fga fold_left].
  destruct (0 <? ShotDistance.fga b); cbn [map fold_left];
    f_equal; f_equal; lia.
Qed.

End DistancePanel.

Section DistanceChart.
Import Visualize.

Ltac five_entries d H :=
  destruct d as [|[? ?] [|[? ?] [|[? ?] [|[? ?] [|[? ?] [|]]]]]];
  try discriminate H; injection H as -> -> -> -> ->.

Lemma bin_column_length (stats : list season_data_t) (k : string) :
  bins_in_order stats -> In k distance_order ->
  List.length (bin_column stats k) = List.length (with_shot_distance stats).
Proof.
  intros Hwf Hk. unfold bin_column, with_shot_distance.
  induction Hwf as [|d stats Hd _ IH]; [reflexivity|].
  cbn [flat_map filter]. rewrite length_app, IH.
  destruct (shot_distance d) as [bins|]; [|reflexivity].
  specialize (Hd bins eq_refl). five_entries bins Hd.
  destruct Hk as [<-|[<-|[<-|[<-|[<-|[]]]]]]; reflexivity.
Qed.

Lemma add_season_keys (bins : Py.dict ShotDistance.bin_stats)
    (dd : Py.dict distance_totals) :
  Py.keys bins = distance_order ->
  dd = [] \/ Py.keys dd = distance_order ->
  Py.keys (fold_left add_bin bins dd) = distance_order.
Proof.
  intros Hb [->|Hd]; five_entries bins Hb.
  - reflexivity.
  - five_entries dd Hd. reflexivity.
Qed.

Lemma distance_data_keys_from (stats : list season_data_t)
    (dd : Py.dict distance_totals) :
  bins_in_order stats ->
  dd = [] \/ Py.keys dd = distance_order ->
  Py.keys (fold_left add_season_distances stats dd) =
  if empty (with_shot_distance stats) then Py.keys dd else distance_order.
Proof.
  intros Hwf. revert dd.
  induction Hwf as [|d stats Hd _ IH]; intros dd Hdd; [reflexivity|].
  cbn [fold_left].
  assert (Hstep : add_season_distances dd d =
                  match shot_distance d with
                  | Some bins => fold_left add_bin bins dd
                  | None => dd
                  end) by reflexivity.
  rewrite Hstep. unfold with_shot_distance. cbn [filter].
  fold (with_shot_distance stats).
  destruct (shot_distance d) as [bins|].
  - pose proof (add_season_keys bins dd (Hd bins eq_refl) Hdd) as Hk.
    rewrite (IH _ (or_intror Hk)), Hk. cbn [empty].
    now destruct (empty _).
  - now apply IH.
Qed.

(** X15.  When every season's stored shot distances have the five bins
    and at least one season has them, the chart lists the five bins in
    order.  The bar of a bin is the sum of its frequencies over the seasons
    that have shot distances, divided by the number of those seasons.  The
    point of a bin is the sum of its shooting percentages over the seasons
    with an attempt from there, divided by the number of seasons that have
    shot distances; a bin without any attempt has no point. *)
Theorem X15_distance_chart (stats : list season_data_t) :
  bins_in_order stats ->
  with_shot_distance stats <> [] ->
  let n := Z.of_nat (List.length (with_shot_distance stats)) in
  distance_breakdown stats =
  {| distances := distance_order;
     pct_fga :=
       map (fun k =>
              fdiv (fsum (map ShotDistance.pct_fga (bin_column stats k)))
                   (of_Z n))
           distance_order;
     fg_pct :=
       map (fun k =>
              let tried := with_attempts (bin_column stats k) in
              if 0 <? fold_left Z.add (map ShotDistance.fga tried) 0
              then Some (fdiv (fsum (map ShotDistance.fg_pct tried)) (of_Z n))
              else None)
           distance_order |}.
Proof.
  intros Hwf Hne n.
  assert (Hn : forall k, In k distance_order ->
                         Z.of_nat (List.length (bin_column stats k)) = n)
    by (intros k Hk; unfold n; now rewrite (bin_column_length stats k)).
  assert (Hpos : 0 < n)
    by (unfold n; destruct (with_shot_distance stats);
        [congruence|cbn [List.length]; lia]).
  assert (Hget : forall k, In k distance_order ->
                   Py.get (distance_data stats) k = Some (bin_totals stats k)).
  { intros k Hk. rewrite distance_totals_of_bin. unfold bin_totals.
    specialize (Hn k Hk). revert Hn. generalize (bin_column stats k).
    intros [|b column] Hlen; [cbn in Hlen; lia|reflexivity]. }
  assert (Hkeys : Py.keys (distance_data stats) = distance_order).
  { unfold distance_data.
    rewrite (distance_data_keys_from stats [] Hwf (or_introl eq_refl)).
    destruct (with_shot_distance stats); [congruence|reflexivity]. }
  unfold distance_breakdown.
  remember (distance_data stats) as dd eqn:Hdd. clear Hdd.
  five_entries dd Hkeys.
  pose proof (Hget "0-3_ft" ltac:(cbn; auto 10)) as H1.
  pose proof (Hget "3-10_ft" ltac:(cbn; auto 10)) as H2.
  pose proof (Hget "10-16_ft" ltac:(cbn; auto 10)) as H3.
  pose proof (Hget "16-23_ft" ltac:(cbn; auto 10)) as H4.
  pose proof (Hget "23+_ft" ltac:(cbn; auto 10)) as H5.
  cbn [Py.get String.eqb Ascii.eqb Bool.eqb] in H1, H2, H3, H4, H5.
  injection H1 as ->. injection H2 as ->. injection H3 as ->.
  injection H4 as ->. injection H5 as ->.
  unfold distance_averages. cbn [filter snd].
  assert (Htest : forall k, In k distance_order ->
                            (0 <? d_count (bin_totals stats k)) = true).
  { intros k Hk. cbn [d_count bin_totals]. rewrite (Hn k Hk).
    now apply Z.ltb_lt. }
  rewrite !Htest by (cbn; auto 10).
  unfold sort_distances, average_pct_fga, average_fg_pct.
  cbn [distances Visualize.pct_fga Visualize.fg_pct map fst snd
       d_pct_fga d_fg_pct d_count d_fga bin_totals].
  rewrite !Hn by (cbn; auto 10).
  reflexivity.
Qed.

End DistanceChart.

Lemma X15_witness :
  option_map (fun c => Visualize.distances c)
    (Some (Visualize.distance_breakdown
             [set_shot_distance
                (ShotDistance.shot_distance (Examples.shots_of "2020-21"))
                (new_season_data "2020-21");
              new_season_data "2021-22"]))
  = Some Visualize.distance_order.
Proof.
  rewrite (X15_distance_chart
             [set_shot_distance
                (ShotDistance.shot_distance (Examples.shots_of "2020-21"))
                (new_season_data "2020-21");
              new_season_data "2021-22"]).
  - reflexivity.
  - repeat constructor; cbn; intros bins [=]; subst; reflexivity.
  - discriminate.
Defined.

Section FigureOfAResult.
Import ClutchPlayerAnalysis.

Lemma shooting_seasons (stats : list season_data_t) :
  Forall (fun d => exists b, clutch_basic d = Some b) stats ->
  Visualize.sh_seasons (Visualize.shooting stats) = map season stats
  /\ Visualize.fg_pcts (Visualize.shooting stats)
     = flat_map (fun d => match clutch_basic d with
                          | Some b => [fg_pct b]
                          | None => []
                          end) stats
  /\ List.length (Visualize.fg_pcts (Visualize.shooting stats))
     = List.length stats.
Proof.
  unfold Visualize.shooting, Visualize.with_clutch_basic.
  cbn [Visualize.sh_seasons Visualize.fg_pcts].
  induction 1 as [|d stats (b & Hb) _ (IH1 & IH2 & IH3)];
    [repeat split|].
  cbn [flat_map map List.length]. rewrite Hb, !map_app.
  cbn [map fst snd app List.length]. rewrite IH3, IH1, IH2.
  repeat split.
Qed.

(** X16.  In the figure of a returned result the shooting panel has one
    group of bars per record, in the order of the records, with the
    record's clutch percentages; and every stored shot-distance dictionary
    has the five bins in the order the distance chart sorts them. *)
Theorem X16_figure_of_a_returned_result
    (E : Env) (show : Visualize.figure -> outcome unit) (name : string)
    (seasons : option (list string)) (r : results_t) (w : world vars) :
  run E show name seasons = (Returned (Some r), w) ->
  let fig := Visualize.player_figure r in
  Visualize.sh_seasons (Visualize.panel_shooting fig)
  = map season (clutch_stats r)
  /\ Visualize.fg_pcts (Visualize.panel_shooting fig)
     = flat_map (fun d => match clutch_basic d with
                          | Some b => [fg_pct b]
                          | None => []
                          end) (clutch_stats r)
  /\ List.length (Visualize.fg_pcts (Visualize.panel_shooting fig))
     = List.length (clutch_stats r)
  /\ Visualize.bins_in_order (clutch_stats r).
Proof.
  intros Hrun fig.
  destruct (run_returned E show name seasons r w Hrun)
    as (info & _ & _ & Hstats & _).
  assert (Hall : Forall (fun d =>
                           (exists b, clutch_basic d = Some b)
                           /\ forall bins, shot_distance d = Some bins ->
                                Py.keys bins = Visualize.distance_order)
                        (clutch_stats r)).
  { rewrite Hstats. apply Forall_forall. intros d Hd.
    apply in_flat_map in Hd. destruct Hd as (s & _ & Hd). split.
    - now apply (season_record_invariant E name (player_id info) s).
    - intros bins Hbins.
      destruct (season_records_fetched E name (player_id info) s d Hd)
        as (_ & _ & _ & _ & Hshot & _).
      destruct (Hshot bins Hbins) as (shot_df & _ & _ & ->).
      apply five_bins. }
  subst fig. unfold Visualize.player_figure.
  cbn [Visualize.panel_shooting].
  destruct (shooting_seasons (clutch_stats r)) as (H1 & H2 & H3).
  { eapply Forall_impl; [|exact Hall]. now intros d (Hb & _). }
  repeat split; [exact H1|exact H2|exact H3|].
  eapply Forall_impl; [|exact Hall]. now intros d (_ & Hk).
Qed.

End FigureOfAResult.

Lemma X16_witness :
  exists r w,
    ClutchPlayerAnalysis.run Examples.shot_chart_down Examples.show_ok
      "Chris Paul" (Some ["2020-21"; "2021-22"]) = (Returned (Some r), w)
    /\ Visualize.sh_seasons
         (Visualize.panel_shooting (Visualize.player_figure r))
       = ["2020-21"; "2021-22"].
Proof.
  do 2 eexists. split; [vm_compute; reflexivity|].
  edestruct (X16_figure_of_a_returned_result
               Examples.shot_chart_down Examples.show_ok "Chris Paul"
               (Some ["2020-21"; "2021-22"])) as (Hs & _);
    [vm_compute; reflexivity|].
  rewrite Hs. reflexivity.
Defined.

(** ** The seasons of [compare_net_rating] *)

Ltac run_net_season :=
  cbv [CompareNetRating.season_rows CompareNetRating.season_lines
       CompareNetRating.season_alone CompareNetRating.process_season
       CompareNetRating.fetch_net_rating CompareNetRating.store
       bind ret raise try_except print call read update sleep
       CompareNetRating.initial_vars] in *;
  cbn [stdout heap CompareNetRating.results CompareNetRating.season_data
       fst snd] in *.

Section NetRatingSeasons.
Import CompareNetRating.
Variable E : Env.
Variable name : string.

(** X17.  A season whose three requests are answered with a row for the
    player prints nothing but its heading, and its row holds the three
    NET_RATINGs of the first rows found.  A request answered without a row
    for the player is reported by its own message. *)
Theorem X17_a_season_of_the_comparison
    (season : string) :
  (forall df1 df2 df3 r1 r2 r3 l1 l2 l3,
      request E season "Regular Season" = Returned df1 ->
      request E season "Clutch" = Returned df2 ->
      request E season "Playoffs" = Returned df3 ->
      select_player (m := Advanced) df1 name = r1 :: l1 ->
      select_player (m := Advanced) df2 name = r2 :: l2 ->
      select_player (m := Advanced) df3 name = r3 :: l3 ->
      season_lines E name season
      = [new_line ++ "Processing season: " ++ season]
      /\ season_rows E name season
         = [season_row season (VNum (NET_RATING r1)) (VNum (NET_RATING r2))
                       (VNum (NET_RATING r3))])
  /\ (forall c df,
         In c net_rating_columns ->
         request E season c = Returned df ->
         select_player (m := Advanced) df name = [] ->
         In ("No " ++ request_name c ++ " data found for " ++ name
             ++ " in " ++ season) (season_lines E name season)).
Proof.
  split.
  - unfold request. cbn [String.eqb Ascii.eqb Bool.eqb].
    intros df1 df2 df3 r1 r2 r3 l1 l2 l3 H1 H2 H3 S1 S2 S3.
    run_net_season. rewrite H1, S1. cbn [stdout heap results season_data].
    rewrite H2, S2. cbn [stdout heap results season_data].
    rewrite H3, S3. split; reflexivity.
  - intros c df [<-|[<-|[<-|[]]]]; unfold request, request_name;
      cbn [String.eqb Ascii.eqb Bool.eqb]; intros Hreq Hsel;
      run_net_season;
      repeat (split_match;
              cbn [stdout heap results season_data fst snd]);
      try congruence;
      repeat match goal with
             | H : Returned _ = Returned _ |- _ => injection H as ->
             end;
      try congruence;
      repeat (rewrite in_app_iff; cbn [In]); auto 10.
Qed.

End NetRatingSeasons.

Lemma X17_witness :
  In "No playoff data found for Chris Paul in 2020-21"
     (CompareNetRating.season_lines
        Examples.missed_playoffs "Chris Paul" "2020-21").
Proof.
  apply (proj2 (X17_a_season_of_the_comparison
                  Examples.missed_playoffs "Chris Paul" "2020-21")
           "Playoffs" []).
  - right. right. left. reflexivity.
  - reflexivity.
  - reflexivity.
Defined.
